(** * HexaGate: connection admission control

    A shallow embedding of the decision layer of HexaGate:
    - [src/types/index.ts]      the shared data model,
    - [src/security/index.ts]   [PolicyManager] and [PKIManager],
    - [src/routing/index.ts]    [NetworkHandler] and [UnifiedRouter],
    followed by the properties of the specification that concern them.

    Conventions of the embedding.
    - An optional property [p?: T] is an [option T]; [undefined] is [None].
    - A JavaScript [number] is an IEEE-754 binary64 value, taken from the
      Standard Library's executable specification [SpecFloat] with
      [prec = 53] and [emax = 1024].
    - A [Date] is its time value (milliseconds since the epoch, an integer);
      [<] and [>] on two [Date]s compare exactly these.
    - A [Set<string>] read only through [has] is a [gset string]; a [Map]
      read only through [get]/[has] is a [gmap]; a [Map] or [Set] that is
      iterated is an insertion-ordered list.
    - Reads of the clock and of the random generator are inputs of the
      function that performs them.
    - A JavaScript exception is an explicit [Throws] outcome; an [async]
      method is the sequence of its statements. *)

From Stdlib Require Import ZArith Bool List Ascii String Lia.
From Stdlib Require Import Floats.SpecFloat.
From stdpp Require Import base option list gmap strings.

Local Open Scope Z_scope.

(** ** JavaScript primitives used by the source *)

Module Js.

(** *** Strings *)

(** [s === t] on strings. *)
Definition str_eq (s t : string) : bool := String.eqb s t.

(** Truthiness of an optional string: [undefined] and [""] are falsy. *)
Definition truthy_str (o : option string) : bool :=
  match o with
  | Some s => negb (str_eq s "")
  | None => false
  end.

(** Truthiness of an optional boolean. *)
Definition truthy_bool (o : option bool) : bool :=
  match o with
  | Some b => b
  | None => false
  end.

(** [s.includes(sub)]: [sub] occurs in [s] as a contiguous substring. *)
Fixpoint includes (s sub : string) : bool :=
  String.prefix sub s ||
  match s with
  | EmptyString => false
  | String _ s' => includes s' sub
  end.

(** *** Numbers *)

Definition number : Type := spec_float.

Definition prec : Z := 53.
Definition emax : Z := 1024.

Definition zero : number := S754_zero false.

(** [x - y] *)
Definition sub (x y : number) : number := SFsub prec emax x y.

(** [x < y] *)
Definition lt (x y : number) : bool := SFltb x y.

(** The character class [\d] of a (non-unicode-property) regular
    expression: the ten ASCII digits. *)
Definition is_digit (c : ascii) : bool :=
  let n := N_of_ascii c in ((48 <=? n) && (n <=? 57))%N.

Definition digit_value (c : ascii) : Z := Z.of_N (N_of_ascii c) - 48.

(** Value of a string of decimal digits, most significant first. *)
Fixpoint digits_value_from (acc : Z) (s : string) : Z :=
  match s with
  | EmptyString => acc
  | String c s' => digits_value_from (10 * acc + digit_value c) s'
  end.

Definition digits_value (s : string) : Z := digits_value_from 0 s.

(** The binary64 value nearest to the rational [n / d] (ties to even),
    for integers [n >= 0] and [d > 0]. The operands are handed to the
    division of [SpecFloat] as exact integer mantissas, so the quotient
    is rounded once. *)
Definition nearest_quotient (n d : Z) : number :=
  match n, d with
  | Zpos pn, Zpos pd =>
      SFdiv prec emax (S754_finite false pn 0) (S754_finite false pd 0)
  | _, _ => zero
  end.

(** [parseFloat(`${int}.${frac}`)] for two non-empty strings of decimal
    digits: the decimal literal [int.frac] converted to the nearest
    number. *)
Definition parseFloat_decimal (int frac : string) : number :=
  let k := Z.of_nat (String.length frac) in
  nearest_quotient (digits_value int * 10 ^ k + digits_value frac) (10 ^ k).

(** The string made of one double quote. *)
Definition dquote : string := String "034"%char EmptyString.

(** *** Exceptions *)

(** A thrown value: an [Error] object with its [message], or anything
    else. *)
Inductive thrown : Type :=
| ErrorObject (message : string)
| OtherValue.

(** Outcome of a call that may throw. *)
Inductive outcome (A : Type) : Type :=
| Normal (a : A)
| Throws (e : thrown).

Arguments Normal {A} a.
Arguments Throws {A} e.

End Js.

(** ** The data model ([src/types/index.ts]) *)

Module Types.

Inductive NetworkType : Type :=
| clearnet | tor | i2p | gnunet | dvpn | custom.

Inductive SecurityLevel : Type :=
| standard | elevated | maximum.

Inductive ConnectionState : Type :=
| disconnected | connecting | connected | error.

(** The [options] bag of a [NetworkConfig]; the only key the routing
    code reads is [endpoint]. *)
Record NetworkOptions : Type := {
  endpoint : option string
}.

Record NetworkConfig : Type := {
  type : NetworkType;
  enabled : bool;
  proxy : option string;
  port : option Js.number;
  options : option NetworkOptions
}.

Inductive EnforcementLevel : Type :=
| warn | block | strict.

Inductive RuleType : Type :=
| anti_downgrade | certificate_rule | network_rule | custom_rule.

Inductive RuleAction : Type :=
| allow | deny | prompt.

(** The [metadata] bag of a [SecurityRule]. The policy engine reads two
    keys, [minVersion] (cast to [string]) and [weakCiphers] (cast to
    [string[]]). *)
Record RuleMetadata : Type := {
  minVersion : option string;
  weakCiphers : option (list string)
}.

Record SecurityRule : Type := {
  rule_type : RuleType;
  condition : string;
  action : RuleAction;
  metadata : option RuleMetadata
}.

Record SecurityPolicy : Type := {
  policy_id : string;
  policy_name : string;
  rules : list SecurityRule;
  enforcementLevel : EnforcementLevel
}.

Record Certificate : Type := {
  cert_id : string;
  subject : string;
  issuer : string;
  publicKey : string;
  serialNumber : string;
  validFrom : Z;
  validTo : Z;
  isPrivate : bool;
  trusted : bool
}.

Record RoutingRequest : Type := {
  handle : option string;
  url : option string;
  preferredNetwork : option NetworkType;
  securityLevel : option SecurityLevel;
  spaceId : option string
}.

(** The [metadata] object of a successful [RoutingResponse]. *)
Record ResponseMetadata : Type := {
  meta_securityLevel : SecurityLevel;
  meta_spaceId : option string
}.

Record RoutingResponse : Type := {
  success : bool;
  networkUsed : NetworkType;
  resolvedAddress : string;
  connectionId : string;
  response_metadata : option ResponseMetadata;
  response_error : option string
}.

(** The string a [NetworkType] is at run time, as a template literal
    prints it. *)
Definition NetworkType_name (t : NetworkType) : string :=
  match t with
  | clearnet => "clearnet"
  | tor => "tor"
  | i2p => "i2p"
  | gnunet => "gnunet"
  | dvpn => "dvpn"
  | custom => "custom"
  end.

#[global] Instance NetworkType_eq_dec : EqDecision NetworkType.
Proof. solve_decision. Defined.

#[global] Instance ConnectionState_eq_dec : EqDecision ConnectionState.
Proof. solve_decision. Defined.

#[global] Instance EnforcementLevel_eq_dec : EqDecision EnforcementLevel.
Proof. solve_decision. Defined.

#[global] Instance RuleAction_eq_dec : EqDecision RuleAction.
Proof. solve_decision. Defined.

End Types.

(** ** [PolicyManager] ([src/security/index.ts]) *)

Module PolicyManager.
Import Types.

Record ConnectionContext : Type := {
  ctx_url : string;
  tlsVersion : option string;
  cipherSuite : option string;
  certificate : option Certificate;
  certificateExpired : option bool
}.

Record PolicyViolation : Type := {
  policyId : string;
  policyName : string;
  rule : SecurityRule;
  message : string
}.

Record PolicyEvaluationResult : Type := {
  allowed : bool;
  violations : list PolicyViolation;
  warnings : list PolicyViolation
}.

(** The two private fields. [policies] is only looked up by key;
    [activePolicies] is iterated, in insertion order. *)
Record t : Type := {
  policies : gmap string SecurityPolicy;
  activePolicies : list string
}.

(** [Set.prototype.add] and [Set.prototype.delete] on an
    insertion-ordered set. *)
Definition set_add (x : string) (s : list string) : list string :=
  if decide (x ∈ s) then s else s ++ [x].

Definition set_delete (x : string) (s : list string) : bool * list string :=
  (bool_decide (x ∈ s), filter (λ y, y ≠ x) s).

(** The three rules of the default policy, in the order of its [rules]
    array. *)
Definition tlsFloorRule : SecurityRule :=
  {| rule_type := anti_downgrade;
     condition := "tls_version < 1.2";
     action := deny;
     metadata := Some {| minVersion := Some "1.2"; weakCiphers := None |} |}.

Definition weakCipherRule : SecurityRule :=
  {| rule_type := anti_downgrade;
     condition := "cipher_suite in weak_ciphers";
     action := deny;
     metadata := Some {| minVersion := None;
                         weakCiphers := Some ["RC4"; "DES"; "3DES"; "MD5"] |} |}.

Definition certificateExpiredRule : SecurityRule :=
  {| rule_type := anti_downgrade;
     condition := "certificate_expired";
     action := deny;
     metadata := None |}.

Definition antiDowngradePolicy : SecurityPolicy :=
  {| policy_id := "default-anti-downgrade";
     policy_name := "Anti-Downgrade Protection";
     rules := [tlsFloorRule; weakCipherRule; certificateExpiredRule];
     enforcementLevel := strict |}.

Definition initializeDefaultPolicies (pm : t) : t := {|
  policies := <[policy_id antiDowngradePolicy := antiDowngradePolicy]> (policies pm);
  activePolicies := set_add (policy_id antiDowngradePolicy) (activePolicies pm)
|}.

(** [new PolicyManager()] *)
Definition new : t :=
  initializeDefaultPolicies {| policies := ∅; activePolicies := [] |}.

(** [createPolicy]; [fresh_id] is what [generatePolicyId] returns, a
    string built from the clock and the random generator. The default
    of [enforcementLevel] is [warn]. *)
Definition createPolicy (pm : t) (fresh_id : string) (name : string)
    (rs : list SecurityRule) (level : option EnforcementLevel)
  : SecurityPolicy * t :=
  let policy := {| policy_id := fresh_id;
                   policy_name := name;
                   rules := rs;
                   enforcementLevel := default warn level |} in
  (policy, {| policies := <[fresh_id := policy]> (policies pm);
              activePolicies := activePolicies pm |}).

Definition getPolicy (pm : t) (id : string) : option SecurityPolicy :=
  policies pm !! id.

Definition activatePolicy (pm : t) (id : string) : bool * t :=
  match policies pm !! id with
  | None => (false, pm)
  | Some _ => (true, {| policies := policies pm;
                        activePolicies := set_add id (activePolicies pm) |})
  end.

Definition deactivatePolicy (pm : t) (id : string) : bool * t :=
  let '(was, s) := set_delete id (activePolicies pm) in
  (was, {| policies := policies pm; activePolicies := s |}).

Definition removePolicy (pm : t) (id : string) : bool * t :=
  let '(_, s) := set_delete id (activePolicies pm) in
  (bool_decide (is_Some (policies pm !! id)),
   {| policies := delete id (policies pm); activePolicies := s |}).

Definition isPolicyActive (pm : t) (id : string) : bool :=
  bool_decide (id ∈ activePolicies pm).

Definition getActivePolicies (pm : t) : list SecurityPolicy :=
  omap (λ id, policies pm !! id) (activePolicies pm).

(** *** Version comparison *)

(** Longest prefix of decimal digits, and what follows it. *)
Fixpoint span_digits (s : string) : string * string :=
  match s with
  | String c s' =>
      if Js.is_digit c
      then let '(ds, rest) := span_digits s' in (String c ds, rest)
      else (EmptyString, s)
  | EmptyString => (EmptyString, EmptyString)
  end.

(** The match of [/(\d+)\.?(\d+)?/] at the start of [s], which begins
    with a digit: group 1 takes every leading digit, the dot is taken if
    it is there, group 2 takes every digit that follows or is
    [undefined]. *)
Definition match_here (s : string) : string * option string :=
  let '(g1, rest) := span_digits s in
  let rest' := match rest with
               | String "."%char r => r
               | _ => rest
               end in
  let '(g2, _) := span_digits rest' in
  (g1, if Js.str_eq g2 "" then None else Some g2).

(** [v.match(/(\d+)\.?(\d+)?/)]: the leftmost match, that is the one at
    the first digit of [v]; [null] when [v] has no digit. *)
Fixpoint match_version (v : string) : option (string * option string) :=
  match v with
  | EmptyString => None
  | String c v' =>
      if Js.is_digit c then Some (match_here v) else match_version v'
  end.

Definition parseVersion (v : string) : Js.number :=
  match match_version v with
  | None => Js.zero
  | Some (g1, g2) => Js.parseFloat_decimal g1 (default "0" g2)
  end.

Definition compareTlsVersions (version minVersion : string) : Js.number :=
  Js.sub (parseVersion version) (parseVersion minVersion).

(** *** Rule evaluation *)

(** A sequence of [if (...) return ...;] statements: the first that
    returns decides. *)
Definition or_else {A} (first : option A) (next : option A) : option A :=
  match first with
  | Some a => Some a
  | None => next
  end.

Definition evaluateAntiDowngrade (r : SecurityRule) (context : ConnectionContext)
  : option string :=
  or_else
    (if Js.str_eq (condition r) "tls_version < 1.2" then
       let minV := default "1.2" (metadata r ≫= minVersion) in
       match tlsVersion context with
       | Some v =>
           if Js.truthy_str (Some v) && Js.lt (compareTlsVersions v minV) Js.zero
           then Some ("TLS version " +:+ v +:+ " is below minimum " +:+ minV)
           else None
       | None => None
       end
     else None)
 (or_else
    (if Js.str_eq (condition r) "cipher_suite in weak_ciphers" then
       let weak := default [] (metadata r ≫= weakCiphers) in
       match cipherSuite context with
       | Some c =>
           if Js.truthy_str (Some c) && existsb (λ w, Js.includes c w) weak
           then Some ("Weak cipher suite detected: " +:+ c)
           else None
       | None => None
       end
     else None)
    (if Js.str_eq (condition r) "certificate_expired"
        && Js.truthy_bool (certificateExpired context)
     then Some "Certificate has expired"
     else None)).

Definition evaluateCertificate (r : SecurityRule) (context : ConnectionContext)
  : option string :=
  match certificate context with
  | None => None
  | Some cert =>
      if Js.str_eq (condition r) "untrusted" && negb (trusted cert)
      then Some "Certificate is not trusted"
      else None
  end.

Definition evaluateRule (r : SecurityRule) (context : ConnectionContext)
  : option string :=
  match rule_type r with
  | anti_downgrade => evaluateAntiDowngrade r context
  | certificate_rule => evaluateCertificate r context
  | _ => None
  end.

(** *** Evaluation of a connection *)

Definition emptyResult : PolicyEvaluationResult :=
  {| allowed := true; violations := []; warnings := [] |}.

(** The body of the inner loop, for one [rule] of [policy]. *)
Definition evaluateOne (context : ConnectionContext) (policy : SecurityPolicy)
    (results : PolicyEvaluationResult) (r : SecurityRule)
  : PolicyEvaluationResult :=
  let violation := evaluateRule r context in
  match violation with
  | Some msg =>
      if Js.truthy_str violation then
        let entry := {| policyId := policy_id policy;
                        policyName := policy_name policy;
                        rule := r;
                        message := msg |} in
        if bool_decide (action r = deny)
           && bool_decide (enforcementLevel policy ≠ warn)
        then {| allowed := false;
                violations := violations results ++ [entry];
                warnings := warnings results |}
        else {| allowed := allowed results;
                violations := violations results;
                warnings := warnings results ++ [entry] |}
      else results
  | None => results
  end.

(** The inner loop over [policy.rules]. *)
Definition evaluatePolicy (context : ConnectionContext)
    (results : PolicyEvaluationResult) (policy : SecurityPolicy)
  : PolicyEvaluationResult :=
  fold_left (evaluateOne context policy) (rules policy) results.

Definition evaluateConnection (pm : t) (context : ConnectionContext)
  : PolicyEvaluationResult :=
  fold_left (evaluatePolicy context) (getActivePolicies pm) emptyResult.

End PolicyManager.

(** ** [PKIManager] ([src/security/index.ts]) *)

Module PKIManager.
Import Types.

Record CertificateVerificationResult : Type := {
  valid : bool;
  trusted : bool;
  errors : list string;
  warnings : list string
}.

Record t : Type := {
  certificates : gmap string Certificate;
  trustedIssuers : gset string
}.

(** [new PKIManager()] *)
Definition new : t := {| certificates := ∅; trustedIssuers := ∅ |}.

Definition addTrustedIssuer (pki : t) (name : string) : t :=
  {| certificates := certificates pki;
     trustedIssuers := {[ name ]} ∪ trustedIssuers pki |}.

Definition removeTrustedIssuer (pki : t) (name : string) : bool * t :=
  (bool_decide (name ∈ trustedIssuers pki),
   {| certificates := certificates pki;
      trustedIssuers := trustedIssuers pki ∖ {[ name ]} |}).

Definition isTrustedIssuer (pki : t) (name : string) : bool :=
  bool_decide (name ∈ trustedIssuers pki).

(** The three statements of [verifyCertificate] that update [result]. *)
Definition checkNotBefore (now : Z) (cert : Certificate)
    (result : CertificateVerificationResult) : CertificateVerificationResult :=
  if validFrom cert >? now
  then {| valid := false;
          trusted := trusted result;
          errors := errors result ++ ["Certificate is not yet valid"];
          warnings := warnings result |}
  else result.

Definition checkNotAfter (now : Z) (cert : Certificate)
    (result : CertificateVerificationResult) : CertificateVerificationResult :=
  if validTo cert <? now
  then {| valid := false;
          trusted := trusted result;
          errors := errors result ++ ["Certificate has expired"];
          warnings := warnings result |}
  else result.

Definition checkTrust (pki : t) (cert : Certificate)
    (result : CertificateVerificationResult) : CertificateVerificationResult :=
  if bool_decide (issuer cert ∈ trustedIssuers pki) || isPrivate cert
  then {| valid := valid result;
          trusted := true;
          errors := errors result;
          warnings := warnings result |}
  else {| valid := valid result;
          trusted := trusted result;
          errors := errors result;
          warnings := warnings result ++ ["Certificate issuer is not in trusted list"] |}.

(** [verifyCertificate(cert)]; [now] is the time value of the
    [new Date()] it reads. *)
Definition verifyCertificate (pki : t) (now : Z) (cert : Certificate)
  : CertificateVerificationResult :=
  let result := {| valid := true; trusted := false; errors := []; warnings := [] |} in
  let result := checkNotBefore now cert result in
  let result := checkNotAfter now cert result in
  checkTrust pki cert result.

(** The object spread [{ ...cert, id }]. *)
Definition with_id (id : string) (cert : Certificate) : Certificate :=
  {| cert_id := id;
     subject := subject cert;
     issuer := issuer cert;
     publicKey := publicKey cert;
     serialNumber := serialNumber cert;
     validFrom := validFrom cert;
     validTo := validTo cert;
     isPrivate := isPrivate cert;
     Types.trusted := Types.trusted cert |}.

(** [addCertificate(cert)]; the [cert_id] of the argument stands for no
    property ([Omit<Certificate, 'id'>]) and is not read; [fresh_id] is
    what [generateCertificateId] returns, a string built from the clock
    and the random generator. *)
Definition addCertificate (pki : t) (fresh_id : string) (cert : Certificate)
  : Certificate * t :=
  let certificate := with_id fresh_id cert in
  (certificate,
   {| certificates := <[cert_id certificate := certificate]> (certificates pki);
      trustedIssuers := trustedIssuers pki |}).

Definition getCertificate (pki : t) (id : string) : option Certificate :=
  certificates pki !! id.

Definition removeCertificate (pki : t) (id : string) : bool * t :=
  (bool_decide (is_Some (certificates pki !! id)),
   {| certificates := delete id (certificates pki);
      trustedIssuers := trustedIssuers pki |}).

Definition getCertificateCount (pki : t) : nat :=
  size (certificates pki).

(** The default of [validityDays]. *)
Definition days_365 : Js.number := Js.nearest_quotient 365 1.

(** [generateSelfSignedCertificate(subject, validityDays)]. The inputs
    that come from outside the program: [addDays], the local calendar
    ([addDays t n] is the time value of the date [t] after
    [setDate(getDate() + n)]); [key], the public key of the generated
    pair; [fresh_id] and [serial], built from the clock and the random
    generator; [now1] and [now2], the time values of the two
    [new Date()]. *)
Definition generateSelfSignedCertificate (addDays : Z -> Js.number -> Z)
    (pki : t) (key fresh_id serial : string) (now1 now2 : Z)
    (subj : string) (validityDays : option Js.number)
  : Certificate * t :=
  let days := default days_365 validityDays in
  let cert := {| cert_id := fresh_id;
                 subject := subj;
                 issuer := subj;
                 publicKey := key;
                 serialNumber := serial;
                 validFrom := now1;
                 validTo := addDays now2 days;
                 isPrivate := true;
                 Types.trusted := true |} in
  (cert,
   {| certificates := <[cert_id cert := cert]> (certificates pki);
      trustedIssuers := trustedIssuers pki |}).

End PKIManager.

(** ** Network handlers and [UnifiedRouter] ([src/routing/index.ts]) *)

Module Routing.
Import Types.
Import Js.

(** *** Handlers *)

(** The members [connect], [disconnect] and [route] are abstract in
    [NetworkHandler]. The file implements them in six classes; any other
    subclass is given by what its three methods do to the handler's
    [state] and what they return or throw. *)
Record Subclass : Type := {
  sub_connect : ConnectionState -> outcome bool * ConnectionState;
  sub_disconnect : ConnectionState -> outcome unit * ConnectionState;
  sub_route : ConnectionState -> string -> outcome string * ConnectionState
}.

(** The class of a handler object, with the private field its
    constructor computed. *)
Inductive HandlerClass : Type :=
| ClearnetHandler
| TorHandler (socksProxy : string)
| I2PHandler (i2pProxy : string)
| GNUnetHandler
| DVPNHandler (dvpn_endpoint : string)
| CustomNetworkHandler (routePrefix : string)
| OtherHandler (impl : Subclass).

Record NetworkHandler : Type := {
  config : NetworkConfig;
  state : ConnectionState;
  kind : HandlerClass
}.

Definition getState (h : NetworkHandler) : ConnectionState := state h.
Definition getType (h : NetworkHandler) : NetworkType := type (config h).
Definition isEnabled (h : NetworkHandler) : bool := enabled (config h).

Definition set_state (s : ConnectionState) (h : NetworkHandler) : NetworkHandler :=
  {| config := config h; state := s; kind := kind h |}.

(** A method call on a handler: it may update the handler and either
    returns or throws. *)
Definition method (A : Type) : Type := NetworkHandler -> outcome A * NetworkHandler.

Definition ret {A} (a : A) : method A := fun h => (Normal a, h).

Definition bind {A B} (m : method A) (k : A -> method B) : method B :=
  fun h =>
    match m h with
    | (Normal a, h') => k a h'
    | (Throws e, h') => (Throws e, h')
    end.

Notation "'let*' x ':=' m 'in' k" := (bind m (fun x => k))
  (at level 10, x name, m at level 100, k at level 200).

Definition lift_subclass {A} (f : ConnectionState -> outcome A * ConnectionState)
  : method A :=
  fun h => let '(o, s) := f (state h) in (o, set_state s h).

(** [handler.connect()]. The six classes of the file set [state] to
    ['connecting'], then to ['connected'], and return [true]. *)
Definition connect : method bool :=
  fun h =>
    match kind h with
    | OtherHandler impl => lift_subclass (sub_connect impl) h
    | _ => (Normal true, set_state connected (set_state connecting h))
    end.

(** [handler.disconnect()] *)
Definition disconnect : method unit :=
  fun h =>
    match kind h with
    | OtherHandler impl => lift_subclass (sub_disconnect impl) h
    | _ => (Normal tt, set_state disconnected h)
    end.

(** [handler.route(address)] *)
Definition handler_route (address : string) : method string :=
  fun h =>
    match kind h with
    | ClearnetHandler => (Normal address, h)
    | TorHandler socksProxy => (Normal (socksProxy +:+ "/" +:+ address), h)
    | I2PHandler i2pProxy => (Normal (i2pProxy +:+ "/" +:+ address), h)
    | GNUnetHandler => (Normal ("gnunet://" +:+ address), h)
    | DVPNHandler ep => (Normal (ep +:+ "/" +:+ address), h)
    | CustomNetworkHandler routePrefix => (Normal (routePrefix +:+ address), h)
    | OtherHandler impl => lift_subclass (fun s => sub_route impl s address) h
    end.

(** [Partial<NetworkConfig>]: a property that is absent is [None]. *)
Record PartialNetworkConfig : Type := {
  p_type : option NetworkType;
  p_enabled : option bool;
  p_proxy : option string;
  p_port : option number;
  p_options : option NetworkOptions
}.

Definition no_config : PartialNetworkConfig :=
  {| p_type := None; p_enabled := None; p_proxy := None;
     p_port := None; p_options := None |}.

(** The object spread [{ ...base, ...config }]. *)
Definition spread (base : NetworkConfig) (c : PartialNetworkConfig) : NetworkConfig :=
  {| type := default (type base) (p_type c);
     enabled := default (enabled base) (p_enabled c);
     proxy := match p_proxy c with Some p => Some p | None => proxy base end;
     port := match p_port c with Some p => Some p | None => port base end;
     options := match p_options c with Some o => Some o | None => options base end |}.

Definition base_config (t : NetworkType) (p : option string) : NetworkConfig :=
  {| type := t; enabled := true; proxy := p; port := None; options := None |}.

(** The constructors of the six classes. *)
Definition new_ClearnetHandler (c : PartialNetworkConfig) : NetworkHandler :=
  {| config := spread (base_config clearnet None) c;
     state := disconnected;
     kind := ClearnetHandler |}.

Definition new_TorHandler (c : PartialNetworkConfig) : NetworkHandler :=
  let cfg := spread (base_config tor (Some "socks5://127.0.0.1:9050")) c in
  {| config := cfg;
     state := disconnected;
     kind := TorHandler (default "socks5://127.0.0.1:9050" (proxy cfg)) |}.

Definition new_I2PHandler (c : PartialNetworkConfig) : NetworkHandler :=
  let cfg := spread (base_config i2p (Some "http://127.0.0.1:4444")) c in
  {| config := cfg;
     state := disconnected;
     kind := I2PHandler (default "http://127.0.0.1:4444" (proxy cfg)) |}.

Definition new_GNUnetHandler (c : PartialNetworkConfig) : NetworkHandler :=
  {| config := spread (base_config gnunet None) c;
     state := disconnected;
     kind := GNUnetHandler |}.

Definition new_DVPNHandler (c : PartialNetworkConfig) : NetworkHandler :=
  {| config := spread (base_config dvpn None) c;
     state := disconnected;
     kind := DVPNHandler (default "dvpn://node" (p_options c ≫= endpoint)) |}.

Definition new_CustomNetworkHandler (c : PartialNetworkConfig)
    (prefix : option string) : NetworkHandler :=
  {| config := spread (base_config custom None) c;
     state := disconnected;
     kind := CustomNetworkHandler (default "custom://" prefix) |}.

(** *** [Map<NetworkType, V>], in insertion order *)

Fixpoint map_get {V} (k : NetworkType) (m : list (NetworkType * V)) : option V :=
  match m with
  | [] => None
  | (k', v) :: m' => if decide (k' = k) then Some v else map_get k m'
  end.

Definition map_has {V} (k : NetworkType) (m : list (NetworkType * V)) : bool :=
  bool_decide (is_Some (map_get k m)).

(** [set] replaces the value of a key that is present, where it stands,
    and appends a new key. *)
Fixpoint map_set {V} (k : NetworkType) (v : V) (m : list (NetworkType * V))
  : list (NetworkType * V) :=
  match m with
  | [] => [(k, v)]
  | (k', v') :: m' =>
      if decide (k' = k) then (k, v) :: m' else (k', v') :: map_set k v m'
  end.

Definition map_delete {V} (k : NetworkType) (m : list (NetworkType * V))
  : bool * list (NetworkType * V) :=
  (map_has k m, filter (λ e, e.1 ≠ k) m).

(** *** The router *)

Record UnifiedRouter : Type := {
  handlers : list (NetworkType * NetworkHandler);
  defaultNetwork : NetworkType
}.

Definition registerHandler (r : UnifiedRouter) (h : NetworkHandler) : UnifiedRouter :=
  {| handlers := map_set (getType h) h (handlers r);
     defaultNetwork := defaultNetwork r |}.

Definition unregisterHandler (r : UnifiedRouter) (t : NetworkType)
  : bool * UnifiedRouter :=
  let '(was, m) := map_delete t (handlers r) in
  (was, {| handlers := m; defaultNetwork := defaultNetwork r |}).

Definition getHandler (r : UnifiedRouter) (t : NetworkType) : option NetworkHandler :=
  map_get t (handlers r).

Definition getRegisteredNetworks (r : UnifiedRouter) : list NetworkType :=
  (handlers r).*1.

(** [new UnifiedRouter()] *)
Definition new : UnifiedRouter :=
  registerHandler {| handlers := []; defaultNetwork := clearnet |}
                  (new_ClearnetHandler no_config).

Definition setDefaultNetwork (r : UnifiedRouter) (t : NetworkType)
  : outcome unit * UnifiedRouter :=
  if negb (map_has t (handlers r))
  then (Throws (ErrorObject
          ("Network handler for " +:+ NetworkType_name t +:+ " is not registered")), r)
  else (Normal tt, {| handlers := handlers r; defaultNetwork := t |}).

(** A response with [success: false]. *)
Definition failure (networkType : NetworkType) (msg : string) : RoutingResponse :=
  {| success := false;
     networkUsed := networkType;
     resolvedAddress := "";
     connectionId := "";
     response_metadata := None;
     response_error := Some msg |}.

(** The body of the [try] block of [route], run on the handler found.
    [connId] is what [generateConnectionId] returns, a string built from
    the clock and the random generator. *)
Definition route_try (request : RoutingRequest) (networkType : NetworkType)
    (connId : string) : method RoutingResponse :=
  let* _ := (fun h => if bool_decide (getState h ≠ connected)
                      then connect h else ret true h) in
  let address := match handle request with
                 | Some a => a
                 | None => default "" (url request)
                 end in
  let* resolved := handler_route address in
  ret {| success := true;
         networkUsed := networkType;
         resolvedAddress := resolved;
         connectionId := connId;
         response_metadata :=
           Some {| meta_securityLevel := default standard (securityLevel request);
                   meta_spaceId := spaceId request |};
         response_error := None |}.

(** The [catch] clause of [route]. *)
Definition route_catch (networkType : NetworkType) (e : thrown) : RoutingResponse :=
  failure networkType
    match e with
    | ErrorObject msg => msg
    | OtherValue => "Unknown routing error"
    end.

(** [route(request)]: the response, or what the call throws, and the
    router afterwards (the handler used is updated where it is
    registered). *)
Definition route (r : UnifiedRouter) (request : RoutingRequest) (connId : string)
  : outcome RoutingResponse * UnifiedRouter :=
  let networkType := default (defaultNetwork r) (preferredNetwork request) in
  match map_get networkType (handlers r) with
  | None =>
      (Normal (failure networkType
                 ("No handler registered for network type: "
                  +:+ NetworkType_name networkType)), r)
  | Some handler =>
      if negb (isEnabled handler) then
        (Normal (failure networkType
                   ("Network " +:+ NetworkType_name networkType +:+ " is disabled")), r)
      else
        let '(tried, handler') := route_try request networkType connId handler in
        let r' := {| handlers := map_set networkType handler' (handlers r);
                     defaultNetwork := defaultNetwork r |} in
        match tried with
        | Normal response => (Normal response, r')
        | Throws e => (Normal (route_catch networkType e), r')
        end
  end.

(** The loop of [connectAll] over the entries of [handlers], with the
    [results] map built so far. A [connect] that throws ends the call. *)
Fixpoint connectAll_loop (entries : list (NetworkType * NetworkHandler))
    (results : list (NetworkType * bool))
  : outcome (list (NetworkType * bool)) * list (NetworkType * NetworkHandler) :=
  match entries with
  | [] => (Normal results, [])
  | (t, handler) :: rest =>
      if isEnabled handler then
        match connect handler with
        | (Normal b, handler') =>
            let '(o, rest') := connectAll_loop rest (map_set t b results) in
            (o, (t, handler') :: rest')
        | (Throws e, handler') => (Throws e, (t, handler') :: rest)
        end
      else
        let '(o, rest') := connectAll_loop rest (map_set t false results) in
        (o, (t, handler) :: rest')
  end.

Definition connectAll (r : UnifiedRouter)
  : outcome (list (NetworkType * bool)) * UnifiedRouter :=
  let '(o, hs) := connectAll_loop (handlers r) [] in
  (o, {| handlers := hs; defaultNetwork := defaultNetwork r |}).

(** The loop of [disconnectAll] over the values of [handlers]. *)
Fixpoint disconnectAll_loop (entries : list (NetworkType * NetworkHandler))
  : outcome unit * list (NetworkType * NetworkHandler) :=
  match entries with
  | [] => (Normal tt, [])
  | (t, handler) :: rest =>
      match disconnect handler with
      | (Normal _, handler') =>
          let '(o, rest') := disconnectAll_loop rest in
          (o, (t, handler') :: rest')
      | (Throws e, handler') => (Throws e, (t, handler') :: rest)
      end
  end.

Definition disconnectAll (r : UnifiedRouter) : outcome unit * UnifiedRouter :=
  let '(o, hs) := disconnectAll_loop (handlers r) in
  (o, {| handlers := hs; defaultNetwork := defaultNetwork r |}).

Definition selectNetworkForSecurity (r : UnifiedRouter) (level : SecurityLevel)
  : NetworkType :=
  match level with
  | maximum =>
      if map_has tor (handlers r) then tor
      else if map_has i2p (handlers r) then i2p
      else defaultNetwork r
  | elevated =>
      if map_has dvpn (handlers r) then dvpn
      else if map_has gnunet (handlers r) then gnunet
      else if map_has tor (handlers r) then tor
      else defaultNetwork r
  | _ => defaultNetwork r
  end.

End Routing.

(** ** [SecurityLevelManager] ([src/security/index.ts]) *)

Module SecurityLevelManager.
Import Types.

Record SecurityLevelConfig : Type := {
  minTlsVersion : string;
  requireCertificateValidation : bool;
  allowSelfSigned : bool;
  requireStrictTransportSecurity : bool
}.

#[global] Instance SecurityLevel_eq_dec : EqDecision SecurityLevel.
Proof. solve_decision. Defined.

(** [Map<SecurityLevel, SecurityLevelConfig>]: [get] and [set]. *)
Fixpoint level_get (k : SecurityLevel) (m : list (SecurityLevel * SecurityLevelConfig))
  : option SecurityLevelConfig :=
  match m with
  | [] => None
  | (k', v) :: m' => if decide (k' = k) then Some v else level_get k m'
  end.

Fixpoint level_set (k : SecurityLevel) (v : SecurityLevelConfig)
    (m : list (SecurityLevel * SecurityLevelConfig))
  : list (SecurityLevel * SecurityLevelConfig) :=
  match m with
  | [] => [(k, v)]
  | (k', v') :: m' =>
      if decide (k' = k) then (k, v) :: m' else (k', v') :: level_set k v m'
  end.

Record t : Type := {
  currentLevel : SecurityLevel;
  levelConfigs : list (SecurityLevel * SecurityLevelConfig)
}.

Definition initializeDefaultConfigs (m : t) : t :=
  let configs := levelConfigs m in
  let configs :=
    level_set standard
      {| minTlsVersion := "1.2";
         requireCertificateValidation := true;
         allowSelfSigned := false;
         requireStrictTransportSecurity := false |} configs in
  let configs :=
    level_set elevated
      {| minTlsVersion := "1.2";
         requireCertificateValidation := true;
         allowSelfSigned := false;
         requireStrictTransportSecurity := true |} configs in
  let configs :=
    level_set maximum
      {| minTlsVersion := "1.3";
         requireCertificateValidation := true;
         allowSelfSigned := false;
         requireStrictTransportSecurity := true |} configs in
  {| currentLevel := currentLevel m; levelConfigs := configs |}.

(** [new SecurityLevelManager()] *)
Definition new : t :=
  initializeDefaultConfigs {| currentLevel := standard; levelConfigs := [] |}.

Definition getCurrentLevel (m : t) : SecurityLevel := currentLevel m.

Definition setLevel (m : t) (level : SecurityLevel) : t :=
  {| currentLevel := level; levelConfigs := levelConfigs m |}.

(** [getCurrentConfig()]; the result is [None] where the code would
    return [undefined] behind its non-null assertion. *)
Definition getCurrentConfig (m : t) : option SecurityLevelConfig :=
  match level_get (currentLevel m) (levelConfigs m) with
  | Some c => Some c
  | None => level_get standard (levelConfigs m)
  end.

Definition getConfig (m : t) (level : SecurityLevel) : option SecurityLevelConfig :=
  level_get level (levelConfigs m).

End SecurityLevelManager.

(** ** [HandleResolver] ([src/handles/index.ts]) *)

Module HandleResolver.
Import Types.
Import Js.

Record HandleMetadata : Type := {
  description : option string;
  tags : option (list string);
  verified : option bool;
  metadata_publicKey : option string
}.

Record Handle : Type := {
  handle_id : string;
  name : string;
  networkType : NetworkType;
  address : string;
  handle_metadata : option HandleMetadata;
  createdAt : Z;
  updatedAt : Z
}.

(** The two private fields; the methods below only look them up by
    key. *)
Record t : Type := {
  handles : gmap string Handle;
  aliasMap : gmap string string
}.

(** [new HandleResolver()] *)
Definition new : t := {| handles := ∅; aliasMap := ∅ |}.

(** The argument [updates] of [updateHandle]; a property that is absent
    is [None]. *)
Record HandleUpdates : Type := {
  u_address : option string;
  u_networkType : option NetworkType;
  u_metadata : option (option HandleMetadata)
}.

Section StringMethods.

(** The methods [String.prototype.toLowerCase] and
    [String.prototype.trim] of the run time. *)
Variable toLowerCase : string -> string.
Variable trim : string -> string.

Definition normalizeHandleName (n : string) : string :=
  trim (toLowerCase n).

(** [registerHandle]; [fresh_id] is what [generateHandleId] returns, and
    [now1], [now2] are the time values of the two [new Date()]. *)
Definition registerHandle (hr : t) (fresh_id : string) (now1 now2 : Z)
    (n : string) (nt : NetworkType) (addr : string)
    (metadata : option HandleMetadata)
  : outcome Handle * t :=
  let normalizedName := normalizeHandleName n in
  if bool_decide (is_Some (handles hr !! normalizedName)) then
    (Throws (ErrorObject
       ("Handle " +:+ dquote +:+ n +:+ dquote +:+ " is already registered")), hr)
  else
    let h := {| handle_id := fresh_id;
                name := normalizedName;
                networkType := nt;
                address := addr;
                handle_metadata := metadata;
                createdAt := now1;
                updatedAt := now2 |} in
    (Normal h, {| handles := <[normalizedName := h]> (handles hr);
                  aliasMap := aliasMap hr |}).

(** [updateHandle]; [now] is the time value of its [new Date()]. *)
Definition updateHandle (hr : t) (now : Z) (n : string) (updates : HandleUpdates)
  : option Handle * t :=
  let normalizedName := normalizeHandleName n in
  match handles hr !! normalizedName with
  | None => (None, hr)
  | Some h =>
      let updatedHandle :=
        {| handle_id := handle_id h;
           name := name h;
           networkType := default (networkType h) (u_networkType updates);
           address := default (address h) (u_address updates);
           handle_metadata := default (handle_metadata h) (u_metadata updates);
           createdAt := createdAt h;
           updatedAt := now |} in
      (Some updatedHandle,
       {| handles := <[normalizedName := updatedHandle]> (handles hr);
          aliasMap := aliasMap hr |})
  end.

Definition resolve (hr : t) (n : string) : option Handle :=
  let normalizedName := normalizeHandleName n in
  let aliasTarget := aliasMap hr !! normalizedName in
  match aliasTarget with
  | Some target =>
      if truthy_str aliasTarget then handles hr !! target
      else handles hr !! normalizedName
  | None => handles hr !! normalizedName
  end.

(** [removeHandle]: every alias whose target is the handle goes with
    it. *)
Definition removeHandle (hr : t) (n : string) : bool * t :=
  let normalizedName := normalizeHandleName n in
  (bool_decide (is_Some (handles hr !! normalizedName)),
   {| handles := delete normalizedName (handles hr);
      aliasMap := filter (λ entry, entry.2 ≠ normalizedName) (aliasMap hr) |}).

Definition createAlias (hr : t) (alias targetHandle : string) : outcome bool * t :=
  let normalizedAlias := normalizeHandleName alias in
  let normalizedTarget := normalizeHandleName targetHandle in
  if bool_decide (is_Some (handles hr !! normalizedAlias)) then
    (Throws (ErrorObject
       (dquote +:+ alias +:+ dquote +:+ " is already registered as a handle")), hr)
  else if negb (bool_decide (is_Some (handles hr !! normalizedTarget))) then
    (Throws (ErrorObject
       ("Target handle " +:+ dquote +:+ targetHandle +:+ dquote
        +:+ " does not exist")), hr)
  else
    (Normal true, {| handles := handles hr;
                     aliasMap := <[normalizedAlias := normalizedTarget]> (aliasMap hr) |}).

Definition removeAlias (hr : t) (alias : string) : bool * t :=
  let normalizedAlias := normalizeHandleName alias in
  (bool_decide (is_Some (aliasMap hr !! normalizedAlias)),
   {| handles := handles hr;
      aliasMap := delete normalizedAlias (aliasMap hr) |}).

Definition hasHandle (hr : t) (n : string) : bool :=
  let normalizedName := normalizeHandleName n in
  bool_decide (is_Some (handles hr !! normalizedName))
  || bool_decide (is_Some (aliasMap hr !! normalizedName)).

End StringMethods.

Definition getHandleCount (hr : t) : nat := size (handles hr).

End HandleResolver.

(** ** The facade [HexaGate] ([src/index.ts]) *)

Module HexaGate.
Import Types.
Import Js.

(** The fields that the methods of the class use. The managers of
    spaces, agents, tasks and wallets, which the constructor also
    creates and no method of the class touches, are left out. *)
Record t : Type := {
  router : Routing.UnifiedRouter;
  handles : HandleResolver.t;
  policies : PolicyManager.t;
  pki : PKIManager.t;
  security : SecurityLevelManager.t;
  initialized : bool
}.

(** [new HexaGate()] *)
Definition new : t :=
  {| router := Routing.new;
     handles := HandleResolver.new;
     policies := PolicyManager.new;
     pki := PKIManager.new;
     security := SecurityLevelManager.new;
     initialized := false |}.

Definition with_router (g : t) (r : Routing.UnifiedRouter) (init : bool) : t :=
  {| router := r;
     handles := handles g;
     policies := policies g;
     pki := pki g;
     security := security g;
     initialized := init |}.

(** [initialize(enabledNetworks)]; the default of the argument is
    [['clearnet']]. *)
Definition initialize (g : t) (enabledNetworks : option (list NetworkType))
  : outcome unit * t :=
  let nets := default [clearnet] enabledNetworks in
  let r := router g in
  let r := if bool_decide (clearnet ∈ nets)
           then Routing.registerHandler r (Routing.new_ClearnetHandler Routing.no_config)
           else r in
  let r := if bool_decide (tor ∈ nets)
           then Routing.registerHandler r (Routing.new_TorHandler Routing.no_config)
           else r in
  let r := if bool_decide (i2p ∈ nets)
           then Routing.registerHandler r (Routing.new_I2PHandler Routing.no_config)
           else r in
  let r := if bool_decide (gnunet ∈ nets)
           then Routing.registerHandler r (Routing.new_GNUnetHandler Routing.no_config)
           else r in
  let r := if bool_decide (dvpn ∈ nets)
           then Routing.registerHandler r (Routing.new_DVPNHandler Routing.no_config)
           else r in
  match Routing.connectAll r with
  | (Normal _, r') => (Normal tt, with_router g r' true)
  | (Throws e, r') => (Throws e, with_router g r' (initialized g))
  end.

Definition isInitialized (g : t) : bool := initialized g.

Definition setSecurityLevel (g : t) (level : SecurityLevel) : t :=
  {| router := router g;
     handles := handles g;
     policies := policies g;
     pki := pki g;
     security := SecurityLevelManager.setLevel (security g) level;
     initialized := initialized g |}.

Definition getSecurityLevel (g : t) : SecurityLevel :=
  SecurityLevelManager.getCurrentLevel (security g).

Definition shutdown (g : t) : outcome unit * t :=
  match Routing.disconnectAll (router g) with
  | (Normal _, r') => (Normal tt, with_router g r' false)
  | (Throws e, r') => (Throws e, with_router g r' (initialized g))
  end.

Section StringMethods.

Variable toLowerCase : string -> string.
Variable trim : string -> string.

(** The first step of [navigate] on its copy of the request: a handle
    that resolves is replaced by its address and network. *)
Definition resolveHandle (g : t) (routingRequest : RoutingRequest) : RoutingRequest :=
  match handle routingRequest with
  | Some h =>
      if truthy_str (Some h) then
        match HandleResolver.resolve toLowerCase trim (handles g) h with
        | Some resolved =>
            {| handle := None;
               url := Some (HandleResolver.address resolved);
               preferredNetwork :=
                 Some (default (HandleResolver.networkType resolved)
                               (preferredNetwork routingRequest));
               securityLevel := securityLevel routingRequest;
               spaceId := spaceId routingRequest |}
        | None => routingRequest
        end
      else routingRequest
  | None => routingRequest
  end.

(** The second step: without a network, the security level of the
    request selects one. *)
Definition selectNetwork (g : t) (routingRequest : RoutingRequest) : RoutingRequest :=
  match preferredNetwork routingRequest, securityLevel routingRequest with
  | None, Some level =>
      {| handle := handle routingRequest;
         url := url routingRequest;
         preferredNetwork :=
           Some (Routing.selectNetworkForSecurity (router g) level);
         securityLevel := securityLevel routingRequest;
         spaceId := spaceId routingRequest |}
  | _, _ => routingRequest
  end.

(** [navigate(request)]; [connId] is the connection identifier that
    [route] generates. *)
Definition navigate (g : t) (request : RoutingRequest) (connId : string)
  : outcome RoutingResponse * t :=
  if negb (initialized g) then
    (Throws (ErrorObject "HexaGate not initialized. Call initialize() first."), g)
  else
    let routingRequest := request in
    let routingRequest := resolveHandle g routingRequest in
    let routingRequest := selectNetwork g routingRequest in
    let '(o, r') := Routing.route (router g) routingRequest connId in
    (o, with_router g r' (initialized g)).

End StringMethods.

End HexaGate.

(** * Vocabulary of the properties *)

Module Spec.
Import Types.

(** ** Policy evaluation *)

Section Policy.
Import PolicyManager.

(** The entry that [evaluateConnection] records for [r], a rule of
    [policy], when [evaluateRule] returns [msg] for it. *)
Definition entry_of (policy : SecurityPolicy) (r : SecurityRule) (msg : string)
  : PolicyViolation :=
  {| policyId := policy_id policy;
     policyName := policy_name policy;
     rule := r;
     message := msg |}.

(** [later] has everything [earlier] has: entries are only appended, and
    [allowed] never goes back to [true]. *)
Definition extends (earlier later : PolicyEvaluationResult) : Prop :=
  violations earlier ⊆ violations later
  ∧ warnings earlier ⊆ warnings later
  ∧ (allowed earlier = false → allowed later = false).

(** What the loops record for one triggered rule, as a property of a
    result: a violation and a refusal, or a warning. *)
Definition recorded (policy : SecurityPolicy) (r : SecurityRule) (msg : string)
    (res : PolicyEvaluationResult) : Prop :=
  if bool_decide (action r = deny) && bool_decide (enforcementLevel policy ≠ warn)
  then entry_of policy r msg ∈ violations res ∧ allowed res = false
  else entry_of policy r msg ∈ warnings res.

(** The entry [v] was recorded for a triggered [deny] rule of one of the
    policies [ps], one whose enforcement level is not [warn]. *)
Definition blocking_origin (ps : list SecurityPolicy) (context : ConnectionContext)
    (v : PolicyViolation) : Prop :=
  ∃ policy r,
    policy ∈ ps ∧ r ∈ rules policy
    ∧ evaluateRule r context = Some (message v)
    ∧ v = entry_of policy r (message v)
    ∧ action r = deny
    ∧ enforcementLevel policy ≠ warn.

(** What [evaluateConnection] maintains while it runs over [ps]. *)
Definition coherent (ps : list SecurityPolicy) (context : ConnectionContext)
    (res : PolicyEvaluationResult) : Prop :=
  (allowed res = false ↔ violations res ≠ [])
  ∧ Forall (blocking_origin ps context) (violations res).

(** No entry of [weak] occurs in the cipher suite of the context. *)
Definition no_weak_cipher (weak : list string) (context : ConnectionContext) : Prop :=
  match cipherSuite context with
  | None => True
  | Some c => Forall (λ w, Js.includes c w = false) weak
  end.

End Policy.

(** ** Routing *)

Section Router.
Import Routing.

(** A handler is registered for the network [t]. *)
Definition registered (r : UnifiedRouter) (t : NetworkType) : Prop :=
  is_Some (getHandler r t).

(** No key occurs twice in [handlers], as in every [Map]. *)
Definition keys_unique (r : UnifiedRouter) : Prop :=
  NoDup (handlers r).*1.

(** The handler is an instance of one of the six classes of the file. *)
Definition builtin (h : NetworkHandler) : Prop :=
  match kind h with
  | OtherHandler _ => False
  | _ => True
  end.

(** [connect], respectively [disconnect], returns on this handler. *)
Definition connects (h : NetworkHandler) : Prop :=
  ∃ b h', connect h = (Js.Normal b, h').

Definition disconnects (h : NetworkHandler) : Prop :=
  ∃ h', disconnect h = (Js.Normal tt, h').

(** No enabled handler of the router throws from [connect], and no
    handler throws from [disconnect]. *)
Definition well_behaved (r : UnifiedRouter) : Prop :=
  ∀ t h, (t, h) ∈ handlers r →
    (isEnabled h = true → connects h) ∧ disconnects h.

(** The error message of a response contains the string [name]. *)
Definition error_mentions (response : RoutingResponse) (name : string) : Prop :=
  match response_error response with
  | Some msg => Js.includes msg name = true
  | None => False
  end.

End Router.

(** ** The state of a [PolicyManager] and the reading of versions *)

Section PolicyState.
Import PolicyManager.

(** The two private fields agree: no identifier is active twice, and
    every active identifier has a policy. *)
Definition consistent (pm : PolicyManager.t) : Prop :=
  NoDup (activePolicies pm)
  ∧ ∀ id, id ∈ activePolicies pm → is_Some (policies pm !! id).

(** The result of running two evaluations one after the other. *)
Definition combine (a b : PolicyEvaluationResult) : PolicyEvaluationResult :=
  {| allowed := allowed a && allowed b;
     violations := violations a ++ violations b;
     warnings := warnings a ++ warnings b |}.

(** The policy cannot refuse a connection: its level is [warn], or none
    of its rules has the action [deny]. *)
Definition advisory (policy : SecurityPolicy) : Prop :=
  enforcementLevel policy = warn
  ∨ Forall (λ r, action r ≠ deny) (rules policy).

(** The rule has a kind and a condition that [evaluateRule] knows. *)
Definition recognised (r : SecurityRule) : bool :=
  match rule_type r with
  | anti_downgrade =>
      Js.str_eq (condition r) "tls_version < 1.2"
      || Js.str_eq (condition r) "cipher_suite in weak_ciphers"
      || Js.str_eq (condition r) "certificate_expired"
  | certificate_rule => Js.str_eq (condition r) "untrusted"
  | _ => false
  end.

Fixpoint no_digit (s : string) : bool :=
  match s with
  | EmptyString => true
  | String c s' => negb (Js.is_digit c) && no_digit s'
  end.

Fixpoint all_digits (s : string) : bool :=
  match s with
  | EmptyString => true
  | String c s' => Js.is_digit c && all_digits s'
  end.

(** A non-empty string of decimal digits. *)
Definition numeral (s : string) : Prop :=
  s ≠ "" ∧ all_digits s = true.

Definition starts_with_digit (s : string) : bool :=
  match s with
  | EmptyString => false
  | String c _ => Js.is_digit c
  end.

Definition starts_with_dot (s : string) : bool :=
  match s with
  | String "."%char _ => true
  | _ => false
  end.

End PolicyState.

(** ** Requests *)

Section Requests.
Import Routing.

(** The address [route] hands to the handler:
    [request.handle ?? request.url ?? '']. *)
Definition request_address (request : RoutingRequest) : string :=
  match handle request with
  | Some a => a
  | None => default "" (url request)
  end.

(** The response of a successful [route]. *)
Definition success_response (request : RoutingRequest) (t : NetworkType)
    (resolved connId : string) : RoutingResponse :=
  {| success := true;
     networkUsed := t;
     resolvedAddress := resolved;
     connectionId := connId;
     response_metadata :=
       Some {| meta_securityLevel := default standard (securityLevel request);
               meta_spaceId := spaceId request |};
     response_error := None |}.

(** The router in which the handler registered for [t] has become [h]. *)
Definition with_handler (r : UnifiedRouter) (t : NetworkType) (h : NetworkHandler)
  : UnifiedRouter :=
  {| handlers := map_set t h (handlers r); defaultNetwork := defaultNetwork r |}.

(** The message that [route] reports for a thrown value. *)
Definition thrown_message (e : Js.thrown) : string :=
  match e with
  | Js.ErrorObject msg => msg
  | Js.OtherValue => "Unknown routing error"
  end.

End Requests.

(** ** The facade *)

Section Facade.
Import Routing HexaGate.

Variable toLowerCase : string -> string.
Variable trim : string -> string.

(** The handle that [navigate] finds for a request: the request has a
    non-empty handle and the resolver knows it. *)
Definition resolved_handle (g : HexaGate.t) (request : RoutingRequest)
  : option HandleResolver.Handle :=
  match handle request with
  | Some h =>
      if Js.truthy_str (Some h)
      then HandleResolver.resolve toLowerCase trim (handles g) h
      else None
  | None => None
  end.

(** The network a request goes to: the one it names, else the one of
    its handle, else the one selected for its security level, else the
    default of the router. *)
Definition network_by_priority (g : HexaGate.t) (request : RoutingRequest)
  : NetworkType :=
  match preferredNetwork request with
  | Some t => t
  | None =>
      match resolved_handle g request with
      | Some h => HandleResolver.networkType h
      | None =>
          match securityLevel request with
          | Some level => selectNetworkForSecurity (router g) level
          | None => defaultNetwork (router g)
          end
      end
  end.

(** The address that is routed: the one of the handle when it resolves,
    else the handle as it is, else the URL. *)
Definition address_by_priority (g : HexaGate.t) (request : RoutingRequest) : string :=
  match resolved_handle g request with
  | Some h => HandleResolver.address h
  | None => request_address request
  end.

End Facade.

End Spec.

(** * Sample inputs *)

Module Samples.
Import Types.

(** A context as a browser would report it, with the TLS version [v]. *)
Definition ctx_tls (v : option string) : PolicyManager.ConnectionContext :=
  {| PolicyManager.ctx_url := "https://example.com";
     PolicyManager.tlsVersion := v;
     PolicyManager.cipherSuite := Some "TLS_AES_256_GCM_SHA384";
     PolicyManager.certificate := None;
     PolicyManager.certificateExpired := None |}.

Definition untrusted_certificate : Certificate :=
  {| cert_id := "cert_1";
     subject := "CN=example.com";
     issuer := "CN=Unknown CA";
     publicKey := "key";
     serialNumber := "1";
     validFrom := 0;
     validTo := 1000;
     isPrivate := false;
     trusted := false |}.

Definition ctx_untrusted : PolicyManager.ConnectionContext :=
  {| PolicyManager.ctx_url := "https://example.com";
     PolicyManager.tlsVersion := Some "1.3";
     PolicyManager.cipherSuite := Some "TLS_AES_256_GCM_SHA384";
     PolicyManager.certificate := Some untrusted_certificate;
     PolicyManager.certificateExpired := None |}.

(** A certificate rule whose action is [prompt]. *)
Definition promptRule : SecurityRule :=
  {| rule_type := certificate_rule;
     condition := "untrusted";
     action := prompt;
     metadata := None |}.

(** A fresh manager on which a [strict] policy holding [promptRule] has
    been created and activated. *)
Definition pm_prompt : PolicyManager.t :=
  let '(policy, pm) :=
    PolicyManager.createPolicy PolicyManager.new "policy_1700000000000_k3x9q2a1b"
      "Certificate trust" [promptRule] (Some strict) in
  (PolicyManager.activatePolicy pm (policy_id policy)).2.

Definition prompt_policy : SecurityPolicy :=
  {| policy_id := "policy_1700000000000_k3x9q2a1b";
     policy_name := "Certificate trust";
     rules := [promptRule];
     enforcementLevel := strict |}.

(** A certificate whose validity starts one millisecond after [now]. *)
Definition certificate_from (now : Z) : Certificate :=
  {| cert_id := "cert_2";
     subject := "CN=example.com";
     issuer := "CN=Unknown CA";
     publicKey := "key";
     serialNumber := "2";
     validFrom := now + 1;
     validTo := now + 86400000;
     isPrivate := false;
     trusted := false |}.

(** The router of the selection table: the default clearnet handler and
    handlers for tor, i2p, dvpn and gnunet, all with their default
    configuration. *)
Definition router_all : Routing.UnifiedRouter :=
  let r := Routing.new in
  let r := Routing.registerHandler r (Routing.new_TorHandler Routing.no_config) in
  let r := Routing.registerHandler r (Routing.new_I2PHandler Routing.no_config) in
  let r := Routing.registerHandler r (Routing.new_DVPNHandler Routing.no_config) in
  Routing.registerHandler r (Routing.new_GNUnetHandler Routing.no_config).

(** [new TorHandler({ enabled: false })], after a call of its
    [connect]. *)
Definition tor_disabled : Routing.NetworkHandler :=
  (Routing.connect
     (Routing.new_TorHandler
        {| Routing.p_type := None;
           Routing.p_enabled := Some false;
           Routing.p_proxy := None;
           Routing.p_port := None;
           Routing.p_options := None |})).2.

(** A fresh router on which [tor_disabled] is registered. *)
Definition router_tor_disabled : Routing.UnifiedRouter :=
  Routing.registerHandler Routing.new tor_disabled.

Definition request_to (t : option NetworkType) : RoutingRequest :=
  {| handle := None;
     url := Some "https://example.com";
     preferredNetwork := t;
     securityLevel := None;
     spaceId := None |}.

(** A [strict] policy that asks for TLS 1.3 through a condition string of
    its own. *)
Definition tls13_policy : SecurityPolicy :=
  {| policy_id := "policy_1700000000001_m4n8p2q7r";
     policy_name := "TLS 1.3 only";
     rules := [ {| rule_type := anti_downgrade;
                   condition := "tls_version < 1.3";
                   action := deny;
                   metadata := Some {| minVersion := Some "1.3";
                                       weakCiphers := None |} |} ];
     enforcementLevel := strict |}.

(** A context with TLS 1.3 and an RC4 cipher suite. *)
Definition ctx_rc4 : PolicyManager.ConnectionContext :=
  {| PolicyManager.ctx_url := "https://example.com";
     PolicyManager.tlsVersion := Some "1.3";
     PolicyManager.cipherSuite := Some "TLS_RSA_WITH_RC4_128_SHA";
     PolicyManager.certificate := None;
     PolicyManager.certificateExpired := None |}.

(** [untrusted_certificate] with its [trusted] bit set. *)
Definition claimed_trusted_certificate : Certificate :=
  {| cert_id := "cert_1";
     subject := "CN=example.com";
     issuer := "CN=Unknown CA";
     publicKey := "key";
     serialNumber := "1";
     validFrom := 0;
     validTo := 1000;
     isPrivate := false;
     trusted := true |}.

(** A handler of a class of its own, for the network [custom]: its
    [connect] fails without throwing (it returns [false] and leaves the
    state [error]), and its [route] returns the address. *)
Definition unreachable_handler : Routing.NetworkHandler :=
  {| Routing.config := Routing.base_config custom None;
     Routing.state := disconnected;
     Routing.kind :=
       Routing.OtherHandler
         {| Routing.sub_connect := λ _, (Js.Normal false, error);
            Routing.sub_disconnect := λ _, (Js.Normal tt, disconnected);
            Routing.sub_route := λ s a, (Js.Normal a, s) |} |}.

Definition router_unreachable : Routing.UnifiedRouter :=
  Routing.registerHandler Routing.new unreachable_handler.

(** A handler of a class of its own whose [connect] throws an [Error]. *)
Definition throwing_handler : Routing.NetworkHandler :=
  {| Routing.config := Routing.base_config custom None;
     Routing.state := disconnected;
     Routing.kind :=
       Routing.OtherHandler
         {| Routing.sub_connect :=
              λ _, (Js.Throws (Js.ErrorObject "proxy unreachable"), error);
            Routing.sub_disconnect := λ _, (Js.Normal tt, disconnected);
            Routing.sub_route := λ s a, (Js.Normal a, s) |} |}.

Definition router_throwing : Routing.UnifiedRouter :=
  Routing.registerHandler Routing.new throwing_handler.

(** [router_tor_disabled] with an i2p handler. *)
Definition router_tor_disabled_i2p : Routing.UnifiedRouter :=
  Routing.registerHandler router_tor_disabled (Routing.new_I2PHandler Routing.no_config).

(** [toLowerCase] and [trim] on strings of ASCII characters. *)
Definition ascii_lower (c : ascii) : ascii :=
  let n := N_of_ascii c in
  if ((65 <=? n) && (n <=? 90))%N then ascii_of_N (n + 32) else c.

Fixpoint ascii_toLowerCase (s : string) : string :=
  match s with
  | EmptyString => EmptyString
  | String c s' => String (ascii_lower c) (ascii_toLowerCase s')
  end.

Fixpoint trim_start (s : string) : string :=
  match s with
  | String c s' => if Ascii.is_space c then trim_start s' else s
  | EmptyString => EmptyString
  end.

Fixpoint trim_end (s : string) : string :=
  match s with
  | String c s' =>
      match trim_end s' with
      | EmptyString => if Ascii.is_space c then EmptyString else String c EmptyString
      | rest => String c rest
      end
  | EmptyString => EmptyString
  end.

Definition ascii_trim (s : string) : string := trim_end (trim_start s).

(** A resolver that knows the handle "my-site", on clearnet. *)
Definition resolver_my_site : HandleResolver.t :=
  (HandleResolver.registerHandle ascii_toLowerCase ascii_trim HandleResolver.new
     "handle_1700000000000_h1j2k3l4m" 1700000000000 1700000000000
     " My-Site " clearnet "https://example.com" None).2.

(** A facade initialized with clearnet and tor, whose resolver is
    [resolver_my_site]. *)
Definition gate_ready : HexaGate.t :=
  let g := (HexaGate.initialize HexaGate.new (Some [clearnet; tor])).2 in
  {| HexaGate.router := HexaGate.router g;
     HexaGate.handles := resolver_my_site;
     HexaGate.policies := HexaGate.policies g;
     HexaGate.pki := HexaGate.pki g;
     HexaGate.security := HexaGate.security g;
     HexaGate.initialized := HexaGate.initialized g |}.

(** A request for the handle "MY-SITE" at the security level
    [maximum]. *)
Definition request_my_site_maximum : RoutingRequest :=
  {| handle := Some "MY-SITE";
     url := None;
     preferredNetwork := None;
     securityLevel := Some maximum;
     spaceId := None |}.

End Samples.

(** * Properties *)

(** ** Policy evaluation *)

Section PolicyEvaluation.
Import Types PolicyManager Spec.

(** Every message of [evaluateRule] is a non-empty string, so the test
    [if (violation)] is the test [violation !== null]. *)
Lemma evaluateRule_truthy r context msg :
  evaluateRule r context = Some msg → Js.truthy_str (Some msg) = true.
Proof.
  unfold evaluateRule, evaluateAntiDowngrade, evaluateCertificate, or_else.
  intros H.
  repeat case_match; try discriminate;
    repeat match goal with E : Some _ = Some _ |- _ => injection E as <- end;
    reflexivity.
Qed.

Lemma evaluateOne_triggered context policy results r msg :
  evaluateRule r context = Some msg →
  evaluateOne context policy results r =
    if bool_decide (action r = deny) && bool_decide (enforcementLevel policy ≠ warn)
    then {| allowed := false;
            violations := violations results ++ [entry_of policy r msg];
            warnings := warnings results |}
    else {| allowed := allowed results;
            violations := violations results;
            warnings := warnings results ++ [entry_of policy r msg] |}.
Proof.
  intros H. unfold evaluateOne. rewrite H.
  rewrite (evaluateRule_truthy _ _ _ H). reflexivity.
Qed.

Lemma evaluateOne_silent context policy results r :
  evaluateRule r context = None →
  evaluateOne context policy results r = results.
Proof. intros H. unfold evaluateOne. rewrite H. reflexivity. Qed.

Lemma extends_refl res : extends res res.
Proof. unfold extends. repeat split; auto. Qed.

Lemma extends_trans a b c : extends a b → extends b c → extends a c.
Proof.
  intros (Hv1 & Hw1 & Ha1) (Hv2 & Hw2 & Ha2).
  repeat split; [by etrans | by etrans | auto].
Qed.

Lemma evaluateOne_extends context policy results r :
  extends results (evaluateOne context policy results r).
Proof.
  destruct (evaluateRule r context) as [msg|] eqn:E.
  - rewrite (evaluateOne_triggered _ _ _ _ _ E).
    case_match; unfold extends; cbn; repeat split; try done;
      intros x Hx; apply elem_of_app; by left.
  - rewrite (evaluateOne_silent _ _ _ _ E). apply extends_refl.
Qed.

Lemma fold_left_extends {A} (f : PolicyEvaluationResult → A → PolicyEvaluationResult) :
  (∀ res x, extends res (f res x)) →
  ∀ l res, extends res (fold_left f l res).
Proof.
  intros Hf l. induction l as [|x l IH]; intros res; cbn.
  - apply extends_refl.
  - eapply extends_trans; [apply Hf | apply IH].
Qed.

Lemma evaluatePolicy_extends context results policy :
  extends results (evaluatePolicy context results policy).
Proof.
  unfold evaluatePolicy. apply fold_left_extends.
  intros. apply evaluateOne_extends.
Qed.

Lemma recorded_extends policy r msg a b :
  extends a b → recorded policy r msg a → recorded policy r msg b.
Proof.
  unfold recorded. intros (Hv & Hw & Ha).
  case_match; [intros [Hin Hno]; split|]; auto.
Qed.

Lemma recorded_blocking policy r msg res :
  action r = deny → enforcementLevel policy ≠ warn →
  recorded policy r msg res →
  entry_of policy r msg ∈ violations res ∧ allowed res = false.
Proof.
  intros Hdeny Hlevel. unfold recorded.
  rewrite !bool_decide_eq_true_2 by assumption. auto.
Qed.

Lemma recorded_advisory policy r msg res :
  action r ≠ deny ∨ enforcementLevel policy = warn →
  recorded policy r msg res →
  entry_of policy r msg ∈ warnings res.
Proof.
  intros H. unfold recorded.
  destruct H as [H|H].
  - rewrite (bool_decide_eq_false_2 _ H). auto.
  - rewrite (bool_decide_eq_false_2 (enforcementLevel policy ≠ warn)) by tauto.
    rewrite andb_false_r. auto.
Qed.

Lemma evaluateOne_recorded context policy results r msg :
  evaluateRule r context = Some msg →
  recorded policy r msg (evaluateOne context policy results r).
Proof.
  intros H. rewrite (evaluateOne_triggered _ _ _ _ _ H).
  unfold recorded. case_match; cbn; repeat split;
    apply elem_of_app; right; apply list_elem_of_singleton; reflexivity.
Qed.

Lemma evaluatePolicy_recorded context policy results r msg :
  r ∈ rules policy →
  evaluateRule r context = Some msg →
  recorded policy r msg (evaluatePolicy context results policy).
Proof.
  intros Hin H. unfold evaluatePolicy.
  apply list_elem_of_split in Hin as (l1 & l2 & ->).
  rewrite fold_left_app. cbn.
  eapply recorded_extends.
  - apply fold_left_extends. intros. apply evaluateOne_extends.
  - apply evaluateOne_recorded, H.
Qed.

Lemma evaluateConnection_recorded pm context policy r msg :
  policy ∈ getActivePolicies pm →
  r ∈ rules policy →
  evaluateRule r context = Some msg →
  recorded policy r msg (evaluateConnection pm context).
Proof.
  intros Hp Hr H. unfold evaluateConnection.
  apply list_elem_of_split in Hp as (l1 & l2 & ->).
  rewrite fold_left_app. cbn.
  eapply recorded_extends.
  - apply fold_left_extends. intros. apply evaluatePolicy_extends.
  - apply evaluatePolicy_recorded; assumption.
Qed.


(** An invariant of the accumulator survives a loop whose every step
    keeps it. *)
Lemma fold_left_preserves {A B} (P : A → Prop) (f : A → B → A) (l : list B) :
  (∀ a x, x ∈ l → P a → P (f a x)) → ∀ a, P a → P (fold_left f l a).
Proof.
  induction l as [|x l IH]; intros Hstep a Ha; cbn; [assumption|].
  apply IH.
  - intros a' y Hy. apply Hstep. by right.
  - apply Hstep; [by left | assumption].
Qed.

Lemma coherent_empty ps context : coherent ps context emptyResult.
Proof. split; [split; cbn; congruence | constructor]. Qed.

Lemma evaluateOne_coherent ps context policy res r :
  policy ∈ ps → r ∈ rules policy →
  coherent ps context res → coherent ps context (evaluateOne context policy res r).
Proof.
  intros Hp Hr [Hiff Hall].
  destruct (evaluateRule r context) as [msg|] eqn:E.
  - rewrite (evaluateOne_triggered _ _ _ _ _ E).
    destruct (bool_decide (action r = deny)
              && bool_decide (enforcementLevel policy ≠ warn)) eqn:B.
    + apply andb_true_iff in B as [Hdeny Hlevel].
      apply bool_decide_eq_true in Hdeny, Hlevel.
      split; cbn.
      * split; [intros _ | reflexivity].
        intros Hnil. by apply app_eq_nil in Hnil as [_ ?].
      * apply Forall_app. split; [assumption|].
        constructor; [|constructor].
        exists policy, r. cbn. auto 10.
    + split; cbn; assumption.
  - by rewrite (evaluateOne_silent _ _ _ _ E).
Qed.

Lemma evaluatePolicy_coherent ps context policy res :
  policy ∈ ps →
  coherent ps context res → coherent ps context (evaluatePolicy context res policy).
Proof.
  intros Hp. unfold evaluatePolicy. apply fold_left_preserves.
  intros a r Hr. by apply evaluateOne_coherent.
Qed.

(** The fresh manager has one active policy, the default one. *)
Lemma getActivePolicies_new :
  getActivePolicies PolicyManager.new = [antiDowngradePolicy].
Proof. vm_compute. reflexivity. Qed.

(** The TLS-floor rule of the default policy fires on a version that is
    reported and compares below the minimum. *)
Lemma tlsFloorRule_fires context v :
  tlsVersion context = Some v →
  v ≠ "" →
  Js.lt (compareTlsVersions v "1.2") Js.zero = true →
  evaluateRule tlsFloorRule context
  = Some ("TLS version " +:+ v +:+ " is below minimum 1.2").
Proof.
  intros Hv Hne Hlt.
  unfold evaluateRule, evaluateAntiDowngrade. cbn. rewrite Hv.
  assert (negb (Js.str_eq v "") = true) as ->.
  { apply negb_true_iff. by apply String.eqb_neq. }
  rewrite Hlt. reflexivity.
Qed.

Lemma default_policy_blocks context v :
  tlsVersion context = Some v →
  v ≠ "" →
  Js.lt (compareTlsVersions v "1.2") Js.zero = true →
  let res := evaluateConnection PolicyManager.new context in
  allowed res = false
  ∧ entry_of antiDowngradePolicy tlsFloorRule
      ("TLS version " +:+ v +:+ " is below minimum 1.2") ∈ violations res.
Proof.
  intros Hv Hne Hlt res.
  assert (antiDowngradePolicy ∈ getActivePolicies PolicyManager.new) as Hactive
    by (rewrite getActivePolicies_new; by left).
  assert (tlsFloorRule ∈ rules antiDowngradePolicy) as Hrule by by left.
  pose proof (evaluateConnection_recorded _ _ _ _ _ Hactive Hrule
                (tlsFloorRule_fires _ _ Hv Hne Hlt)) as Hrec.
  apply recorded_blocking in Hrec as [Hin Hno]; [auto | reflexivity | discriminate].
Qed.

(** With no TLS version reported the TLS-floor rule is silent. *)
Lemma tlsFloorRule_silent context :
  Js.truthy_str (tlsVersion context) = false →
  evaluateRule tlsFloorRule context = None.
Proof.
  intros H. unfold evaluateRule, evaluateAntiDowngrade. cbn.
  destruct (tlsVersion context) as [v|]; [|reflexivity].
  cbn in H. rewrite H. reflexivity.
Qed.

Lemma weakCipherRule_silent context :
  no_weak_cipher ["RC4"; "DES"; "3DES"; "MD5"] context →
  evaluateRule weakCipherRule context = None.
Proof.
  unfold no_weak_cipher. intros H.
  unfold evaluateRule, evaluateAntiDowngrade. cbn -[existsb Js.includes].
  destruct (cipherSuite context) as [c|]; [|reflexivity].
  assert (existsb (λ w, Js.includes c w) ["RC4"; "DES"; "3DES"; "MD5"] = false) as ->.
  { apply not_true_is_false. intros Hex.
    apply existsb_exists in Hex as (w & Hin & Hw).
    rewrite Forall_forall in H. apply list_elem_of_In in Hin.
    rewrite (H w Hin) in Hw. discriminate. }
  rewrite andb_false_r. reflexivity.
Qed.

Lemma certificateExpiredRule_silent context :
  certificateExpired context ≠ Some true →
  evaluateRule certificateExpiredRule context = None.
Proof.
  intros H. unfold evaluateRule, evaluateAntiDowngrade. cbn.
  destruct (certificateExpired context) as [[|]|]; cbn; congruence.
Qed.


(** *** The default policy *)

(** C1. Fail-closed default: on a freshly constructed [PolicyManager] the
    only active policy is "Anti-Downgrade Protection", at level [strict],
    and every context whose [tlsVersion] is ["1.0"] is refused: [allowed]
    is [false] and the violations hold the entry of the TLS-floor rule. *)
Theorem fail_closed_default context :
  tlsVersion context = Some "1.0" →
  getActivePolicies PolicyManager.new = [antiDowngradePolicy]
  ∧ policy_name antiDowngradePolicy = "Anti-Downgrade Protection"
  ∧ enforcementLevel antiDowngradePolicy = strict
  ∧ allowed (evaluateConnection PolicyManager.new context) = false
  ∧ entry_of antiDowngradePolicy tlsFloorRule "TLS version 1.0 is below minimum 1.2"
      ∈ violations (evaluateConnection PolicyManager.new context)
  ∧ violations (evaluateConnection PolicyManager.new context) ≠ [].
Proof.
  intros Hv.
  destruct (default_policy_blocks context "1.0" Hv) as [Hno Hin].
  - discriminate.
  - vm_compute. reflexivity.
  - split; [apply getActivePolicies_new|].
    do 2 (split; [reflexivity|]).
    split; [exact Hno|]. split; [exact Hin|].
    intros Hnil. rewrite Hnil in Hin. by apply elem_of_nil in Hin.
Qed.

Lemma fail_closed_default_witness :
  tlsVersion (Samples.ctx_tls (Some "1.0")) = Some "1.0"
  ∧ allowed (evaluateConnection PolicyManager.new (Samples.ctx_tls (Some "1.0"))) = false.
Proof.
  split; [reflexivity|].
  apply (fail_closed_default (Samples.ctx_tls (Some "1.0"))). reflexivity.
Defined.

(** C2, on the code. [parseVersion] reads a version as a decimal
    fraction, so ["1.10"] is the number 1.1, the same as ["1.1"]: it
    compares below the default minimum ["1.2"], and a fresh
    [PolicyManager] refuses a context whose [tlsVersion] is ["1.10"]
    through the TLS-floor rule. *)
Theorem tls_1_10_below_1_2 :
  parseVersion "1.10" = parseVersion "1.1"
  ∧ Js.lt (compareTlsVersions "1.10" "1.2") Js.zero = true
  ∧ evaluateConnection PolicyManager.new (Samples.ctx_tls (Some "1.10"))
    = {| allowed := false;
         violations := [entry_of antiDowngradePolicy tlsFloorRule
                          "TLS version 1.10 is below minimum 1.2"];
         warnings := [] |}.
Proof. repeat split; vm_compute; reflexivity. Qed.

(** C10. A context that reports no TLS version ([undefined] or the empty
    string) never triggers the TLS-floor rule of the default policy; if
    moreover its cipher suite contains none of the default weak ciphers
    and [certificateExpired] is not [true], a fresh [PolicyManager]
    returns the empty result: allowed, no violation, no warning. *)
Theorem absent_tls_version_is_allowed context :
  tlsVersion context = None ∨ tlsVersion context = Some "" →
  evaluateRule tlsFloorRule context = None
  ∧ (no_weak_cipher ["RC4"; "DES"; "3DES"; "MD5"] context →
     certificateExpired context ≠ Some true →
     evaluateConnection PolicyManager.new context
     = {| allowed := true; violations := []; warnings := [] |}).
Proof.
  intros Hv.
  assert (Js.truthy_str (tlsVersion context) = false) as Hfalsy
    by (destruct Hv as [-> | ->]; reflexivity).
  split; [by apply tlsFloorRule_silent|].
  intros Hweak Hexp.
  unfold evaluateConnection. rewrite getActivePolicies_new.
  cbn [fold_left]. unfold evaluatePolicy.
  cbn [rules antiDowngradePolicy fold_left].
  rewrite !evaluateOne_silent; [reflexivity | ..].
  - by apply tlsFloorRule_silent.
  - by apply weakCipherRule_silent.
  - by apply certificateExpiredRule_silent.
Qed.

Lemma absent_tls_version_is_allowed_witness :
  allowed (evaluateConnection PolicyManager.new (Samples.ctx_tls None)) = true.
Proof.
  destruct (absent_tls_version_is_allowed (Samples.ctx_tls None)) as [_ H].
  - left. reflexivity.
  - rewrite H; [reflexivity | | discriminate].
    repeat constructor.
Defined.

(** *** Aggregation *)

(** C5, as the code has it. For a triggered rule of an active policy:
    under level [warn] its entry is a warning; under [block] or [strict]
    its entry is a violation, and [allowed] is [false], when the action
    of the rule is [deny], and a warning when the action is [allow] or
    [prompt]. *)
Theorem aggregation_rule pm context policy r msg :
  policy ∈ getActivePolicies pm →
  r ∈ rules policy →
  evaluateRule r context = Some msg →
  let res := evaluateConnection pm context in
  (enforcementLevel policy = warn → entry_of policy r msg ∈ warnings res)
  ∧ (enforcementLevel policy ≠ warn → action r = deny →
     entry_of policy r msg ∈ violations res ∧ allowed res = false)
  ∧ (enforcementLevel policy ≠ warn → action r ≠ deny →
     entry_of policy r msg ∈ warnings res).
Proof.
  intros Hp Hr H res.
  pose proof (evaluateConnection_recorded _ _ _ _ _ Hp Hr H) as Hrec.
  fold res in Hrec.
  split; [|split].
  - intros Hw. eapply recorded_advisory; [right; exact Hw | exact Hrec].
  - intros Hl Hd. by apply recorded_blocking.
  - intros _ Hd. eapply recorded_advisory; [left; exact Hd | exact Hrec].
Qed.

Lemma aggregation_rule_witness :
  allowed (evaluateConnection PolicyManager.new (Samples.ctx_tls (Some "1.0"))) = false.
Proof.
  assert (antiDowngradePolicy ∈ getActivePolicies PolicyManager.new) as Hp
    by (vm_compute; by left).
  assert (tlsFloorRule ∈ rules antiDowngradePolicy) as Hr by by left.
  assert (evaluateRule tlsFloorRule (Samples.ctx_tls (Some "1.0"))
          = Some "TLS version 1.0 is below minimum 1.2") as H
    by (vm_compute; reflexivity).
  destruct (aggregation_rule _ _ _ _ _ Hp Hr H) as (_ & Hblock & _).
  apply Hblock; [discriminate | reflexivity].
Defined.

(** C5 as stated fails: [pm_prompt] has an active policy of level [strict]
    whose rule [promptRule] is triggered by [ctx_untrusted], yet the
    connection is allowed and there is no violation; the entry is a
    warning, because the action of the rule is [prompt]. *)
Lemma aggregation_rule_counterexample :
  getActivePolicies Samples.pm_prompt = [antiDowngradePolicy; Samples.prompt_policy]
  ∧ enforcementLevel Samples.prompt_policy = strict
  ∧ rules Samples.prompt_policy = [Samples.promptRule]
  ∧ evaluateRule Samples.promptRule Samples.ctx_untrusted
    = Some "Certificate is not trusted"
  ∧ evaluateConnection Samples.pm_prompt Samples.ctx_untrusted
    = {| allowed := true;
         violations := [];
         warnings := [entry_of Samples.prompt_policy Samples.promptRule
                        "Certificate is not trusted"] |}.
Proof. repeat split; vm_compute; reflexivity. Qed.

(** C6. For every state of the manager and every context, the result of
    [evaluateConnection] has [allowed = false] exactly when [violations]
    is not empty, and every violation was recorded for a triggered [deny]
    rule of an active policy whose enforcement level is not [warn]. *)
Theorem result_invariant pm context :
  let res := evaluateConnection pm context in
  (allowed res = false ↔ violations res ≠ [])
  ∧ Forall (blocking_origin (getActivePolicies pm) context) (violations res).
Proof.
  cbn. unfold evaluateConnection.
  apply (fold_left_preserves (coherent (getActivePolicies pm) context)).
  - intros a policy Hp. by apply evaluatePolicy_coherent.
  - apply coherent_empty.
Qed.

End PolicyEvaluation.

(** ** Certificate verification *)

Section CertificateVerification.
Import Types PKIManager.

(** Membership in a list that is written out. *)
Ltac in_literal_list :=
  repeat first [ apply list_elem_of_here | apply list_elem_of_further ].

Lemma checkTrust_errors pki cert res :
  errors (checkTrust pki cert res) = errors res
  ∧ valid (checkTrust pki cert res) = valid res.
Proof. unfold checkTrust. by case_match. Qed.

(** The temporal part of a verification does not look at the trust
    store. *)
Lemma verifyCertificate_temporal pki now cert :
  let res := verifyCertificate pki now cert in
  errors res
  = (if validFrom cert >? now then ["Certificate is not yet valid"] else [])
    ++ (if validTo cert <? now then ["Certificate has expired"] else [])
  ∧ valid res = negb (validFrom cert >? now) && negb (validTo cert <? now).
Proof.
  cbn. unfold verifyCertificate.
  destruct (checkTrust_errors pki cert
              (checkNotAfter now cert
                 (checkNotBefore now cert
                    {| valid := true; trusted := false; errors := []; warnings := [] |})))
    as [-> ->].
  unfold checkNotAfter, checkNotBefore.
  destruct (validFrom cert >? now), (validTo cert <? now); split; reflexivity.
Qed.

Lemma verifyCertificate_trust pki now cert :
  let res := verifyCertificate pki now cert in
  trusted res = bool_decide (issuer cert ∈ trustedIssuers pki) || isPrivate cert
  ∧ warnings res
    = if bool_decide (issuer cert ∈ trustedIssuers pki) || isPrivate cert
      then [] else ["Certificate issuer is not in trusted list"].
Proof.
  cbn. unfold verifyCertificate, checkTrust, checkNotAfter, checkNotBefore.
  destruct (bool_decide (issuer cert ∈ trustedIssuers pki) || isPrivate cert),
    (validFrom cert >? now), (validTo cert <? now); split; reflexivity.
Qed.

(** C3, as the code has it. A certificate whose [validFrom] is strictly
    after the current time, be it by one millisecond, is not valid, with
    the error "Certificate is not yet valid"; one whose [validTo] is
    strictly before the current time is not valid, with the error
    "Certificate has expired"; one whose [validTo] is the current time is
    not expired (the bound is inclusive); the two checks are independent,
    and when both fail the result carries both errors. Inside the window
    the certificate is valid and there is no error. *)
Theorem certificate_temporal_validity pki now cert :
  let res := verifyCertificate pki now cert in
  (now < validFrom cert →
     valid res = false ∧ "Certificate is not yet valid" ∈ errors res)
  ∧ (validTo cert < now →
     valid res = false ∧ "Certificate has expired" ∈ errors res)
  ∧ (validTo cert = now → "Certificate has expired" ∉ errors res)
  ∧ (now < validFrom cert → validTo cert < now →
     errors res = ["Certificate is not yet valid"; "Certificate has expired"])
  ∧ (validFrom cert ≤ now ≤ validTo cert → valid res = true ∧ errors res = []).
Proof.
  destruct (verifyCertificate_temporal pki now cert) as [He Hv].
  cbn in *. rewrite He, Hv. clear He Hv.
  destruct (Z.gtb_spec (validFrom cert) now) as [Hfrom|Hfrom],
           (Z.ltb_spec (validTo cert) now) as [Hto|Hto]; cbn.
  - (* not yet valid and expired *)
    repeat split; intros; try lia; in_literal_list.
  - (* not yet valid *)
    repeat split; intros; try lia; try in_literal_list.
    rewrite list_elem_of_singleton. discriminate.
  - (* expired *)
    repeat split; intros; try lia; in_literal_list.
  - (* inside the window *)
    repeat split; intros; try lia. apply not_elem_of_nil.
Qed.

Lemma certificate_temporal_validity_witness :
  1000 < validFrom (Samples.certificate_from 1000)
  ∧ valid (verifyCertificate PKIManager.new 1000 (Samples.certificate_from 1000)) = false
  ∧ "Certificate is not yet valid"
      ∈ errors (verifyCertificate PKIManager.new 1000 (Samples.certificate_from 1000)).
Proof.
  assert (1000 < validFrom (Samples.certificate_from 1000)) as H by (cbn; lia).
  split; [exact H|].
  destruct (certificate_temporal_validity PKIManager.new 1000
              (Samples.certificate_from 1000)) as (Hfrom & _).
  exact (Hfrom H).
Defined.

(** C3 as stated fails on its second part: the [validTo] of
    [untrusted_certificate] is 1000, and verified at the time 1000 it is
    valid, with no error. *)
Lemma certificate_expiry_boundary_counterexample :
  validTo Samples.untrusted_certificate = 1000
  ∧ valid (verifyCertificate PKIManager.new 1000 Samples.untrusted_certificate) = true
  ∧ errors (verifyCertificate PKIManager.new 1000 Samples.untrusted_certificate) = [].
Proof. repeat split; vm_compute; reflexivity. Qed.

(** C4. [trusted] is [true] exactly when the issuer is in the set of
    trusted issuers or the certificate is private. When [trusted] is
    [false] the result carries the warning "Certificate issuer is not in
    trusted list", and the lack of trust adds no error: [valid] is [false]
    only for a temporal fault, and the errors are temporal ones. *)
Theorem trust_computation pki now cert :
  let res := verifyCertificate pki now cert in
  (trusted res = true ↔ issuer cert ∈ trustedIssuers pki ∨ isPrivate cert = true)
  ∧ (trusted res = false →
     warnings res = ["Certificate issuer is not in trusted list"]
     ∧ (valid res = false ↔ now < validFrom cert ∨ validTo cert < now)
     ∧ Forall (λ e, e = "Certificate is not yet valid" ∨ e = "Certificate has expired")
              (errors res)).
Proof.
  destruct (verifyCertificate_temporal pki now cert) as [He Hv].
  destruct (verifyCertificate_trust pki now cert) as [Ht Hw].
  cbn in *. rewrite He, Hv, Ht, Hw. clear He Hv Ht Hw.
  split.
  - rewrite orb_true_iff, bool_decide_eq_true. reflexivity.
  - intros ->. split; [reflexivity|]. split.
    + destruct (Z.gtb_spec (validFrom cert) now), (Z.ltb_spec (validTo cert) now);
        cbn; split; intros; try lia; try reflexivity; try discriminate.
    + destruct (validFrom cert >? now), (validTo cert <? now); cbn;
        repeat first [ apply List.Forall_nil
                     | apply List.Forall_cons; [first [by left | by right]|] ].
Qed.

Lemma trust_computation_witness :
  trusted (verifyCertificate PKIManager.new 500 Samples.untrusted_certificate) = false
  ∧ warnings (verifyCertificate PKIManager.new 500 Samples.untrusted_certificate)
    = ["Certificate issuer is not in trusted list"]
  ∧ errors (verifyCertificate PKIManager.new 500 Samples.untrusted_certificate) = [].
Proof.
  assert (trusted (verifyCertificate PKIManager.new 500 Samples.untrusted_certificate)
          = false) as H by (vm_compute; reflexivity).
  split; [exact H|].
  destruct (trust_computation PKIManager.new 500 Samples.untrusted_certificate)
    as [_ Hun].
  destruct (Hun H) as (Hw & _ & _).
  split; [exact Hw | vm_compute; reflexivity].
Defined.

End CertificateVerification.

(** ** Routing *)

Section RouterProperties.
Import Types Routing Spec.

Lemma map_has_registered r t :
  map_has t (handlers r) = true ↔ registered r t.
Proof. unfold map_has, registered, getHandler. apply bool_decide_eq_true. Qed.

Lemma map_has_not_registered r t :
  map_has t (handlers r) = false ↔ ¬ registered r t.
Proof. unfold map_has, registered, getHandler. apply bool_decide_eq_false. Qed.

(** C7. With handlers registered for clearnet, tor, i2p, dvpn and gnunet
    and clearnet as the default network, [selectNetworkForSecurity]
    returns tor for [maximum], dvpn for [elevated] and clearnet for
    [standard]. In general [maximum] takes tor, else i2p, else the
    default; [elevated] takes dvpn, else gnunet, else tor, else the
    default; [standard] takes the default. *)
Theorem security_level_selection r :
  (registered r clearnet → registered r tor → registered r i2p →
   registered r dvpn → registered r gnunet → defaultNetwork r = clearnet →
   selectNetworkForSecurity r maximum = tor
   ∧ selectNetworkForSecurity r elevated = dvpn
   ∧ selectNetworkForSecurity r standard = clearnet)
  ∧ (registered r tor → selectNetworkForSecurity r maximum = tor)
  ∧ (¬ registered r tor → registered r i2p →
     selectNetworkForSecurity r maximum = i2p)
  ∧ (¬ registered r tor → ¬ registered r i2p →
     selectNetworkForSecurity r maximum = defaultNetwork r)
  ∧ (registered r dvpn → selectNetworkForSecurity r elevated = dvpn)
  ∧ (¬ registered r dvpn → registered r gnunet →
     selectNetworkForSecurity r elevated = gnunet)
  ∧ (¬ registered r dvpn → ¬ registered r gnunet → registered r tor →
     selectNetworkForSecurity r elevated = tor)
  ∧ (¬ registered r dvpn → ¬ registered r gnunet → ¬ registered r tor →
     selectNetworkForSecurity r elevated = defaultNetwork r)
  ∧ selectNetworkForSecurity r standard = defaultNetwork r.
Proof.
  unfold selectNetworkForSecurity.
  repeat split; intros;
    repeat match goal with
      | H : registered _ _ |- _ => apply map_has_registered in H; rewrite ?H
      | H : ¬ registered _ _ |- _ => apply map_has_not_registered in H; rewrite ?H
      end;
    congruence.
Qed.

Lemma security_level_selection_witness :
  selectNetworkForSecurity Samples.router_all maximum = tor
  ∧ selectNetworkForSecurity Samples.router_all elevated = dvpn
  ∧ selectNetworkForSecurity Samples.router_all standard = clearnet.
Proof.
  destruct (security_level_selection Samples.router_all) as [Hall _].
  apply Hall; solve [vm_compute; eauto | reflexivity].
Defined.


(** *** [route] *)

Lemma error_mentions_no_handler t :
  Js.includes ("No handler registered for network type: " +:+ NetworkType_name t)
              (NetworkType_name t) = true.
Proof. destruct t; vm_compute; reflexivity. Qed.

Lemma error_mentions_disabled t :
  Js.includes ("Network " +:+ NetworkType_name t +:+ " is disabled")
              (NetworkType_name t) = true.
Proof. destruct t; vm_compute; reflexivity. Qed.

(** C8. [route] returns a response for every router, request and
    connection identifier: it never throws, whatever the methods
    [connect] and [route] of the handler return or throw. The response
    names the network that was asked for (the preferred one, else the
    default), and every failure is in the response: [success] is [false]
    exactly when the response carries an error message. When no handler
    is registered for that network, and when the handler registered for
    it is disabled, [success] is [false], the error message contains the
    name of the network, and the router is left as it was: no handler is
    enabled and no other network is used. When the handler is enabled,
    [connect] is called if it is not connected, then its [route]: what
    either of them throws gives a response with [success = false] and the
    message of the thrown error, and when both return the response has
    [success = true], the resolved address and no error. *)
Theorem route_never_throws r request connId :
  let networkType := default (defaultNetwork r) (preferredNetwork request) in
  ∃ response r',
    route r request connId = (Js.Normal response, r')
    ∧ networkUsed response = networkType
    ∧ (success response = false ↔ is_Some (response_error response))
    ∧ (¬ registered r networkType →
       r' = r
       ∧ success response = false
       ∧ response_error response
         = Some ("No handler registered for network type: "
                 +:+ NetworkType_name networkType)
       ∧ error_mentions response (NetworkType_name networkType))
    ∧ (∀ h, getHandler r networkType = Some h → isEnabled h = false →
       r' = r
       ∧ success response = false
       ∧ response_error response
         = Some ("Network " +:+ NetworkType_name networkType +:+ " is disabled")
       ∧ error_mentions response (NetworkType_name networkType))
    ∧ (∀ h, getHandler r networkType = Some h → isEnabled h = true →
       let attempt := if bool_decide (getState h ≠ connected)
                      then connect h else (Js.Normal true, h) in
       (∀ e h1, attempt = (Js.Throws e, h1) →
          success response = false
          ∧ response_error response = Some (thrown_message e)
          ∧ response = failure networkType (thrown_message e)
          ∧ r' = with_handler r networkType h1)
       ∧ (∀ b h1 e h2, attempt = (Js.Normal b, h1) →
          handler_route (request_address request) h1 = (Js.Throws e, h2) →
          success response = false
          ∧ response_error response = Some (thrown_message e)
          ∧ response = failure networkType (thrown_message e)
          ∧ r' = with_handler r networkType h2)
       ∧ (∀ b h1 resolved h2, attempt = (Js.Normal b, h1) →
          handler_route (request_address request) h1 = (Js.Normal resolved, h2) →
          success response = true
          ∧ response_error response = None
          ∧ response = success_response request networkType resolved connId
          ∧ r' = with_handler r networkType h2)).
Proof.
  intros networkType. unfold route, registered, getHandler.
  fold networkType.
  destruct (map_get networkType (handlers r)) as [handler|] eqn:Hget.
  - destruct (isEnabled handler) eqn:Hen; cbn [negb].
    + unfold route_try, bind, ret. fold (request_address request).
      destruct (if bool_decide (getState handler ≠ connected)
                then connect handler else (Js.Normal true, handler))
        as [[b|e] h1] eqn:Hattempt.
      * destruct (handler_route (request_address request) h1)
          as [[resolved|e] h2] eqn:Hresolve.
        -- eexists _, _. split; [reflexivity|]. cbn.
           split; [reflexivity|].
           split; [split; [discriminate | by intros [? ?]]|].
           split; [intros Hno; contradict Hno; eauto|].
           split; [intros ? [= <-] ?; congruence|].
           intros ? [= <-] _. rewrite Hattempt.
           split; [intros ? ? [=]|]. split.
           ++ intros ? ? ? ? [= <- <-]. rewrite Hresolve. intros [=].
           ++ intros ? ? ? ? [= <- <-]. rewrite Hresolve. intros [= <- <-]. done.
        -- eexists _, _. split; [reflexivity|]. cbn.
           split; [reflexivity|].
           split; [split; [eauto | reflexivity]|].
           split; [intros Hno; contradict Hno; eauto|].
           split; [intros ? [= <-] ?; congruence|].
           intros ? [= <-] _. rewrite Hattempt.
           split; [intros ? ? [=]|]. split.
           ++ intros ? ? ? ? [= <- <-]. rewrite Hresolve. intros [= <- <-]. done.
           ++ intros ? ? ? ? [= <- <-]. rewrite Hresolve. intros [=].
      * eexists _, _. split; [reflexivity|]. cbn.
        split; [reflexivity|].
        split; [split; [eauto | reflexivity]|].
        split; [intros Hno; contradict Hno; eauto|].
        split; [intros ? [= <-] ?; congruence|].
        intros ? [= <-] _. rewrite Hattempt.
        split; [intros ? ? [= <- <-]; done|].
        split; intros ? ? ? ? [=].
    + eexists _, _. split; [reflexivity|]. cbn.
      split; [reflexivity|].
      split; [split; [eauto | reflexivity]|].
      split; [intros Hno; contradict Hno; eauto|].
      split; [|intros ? [= <-] ?; congruence].
      intros _ _ _. repeat split. unfold error_mentions. cbn.
      apply error_mentions_disabled.
  - eexists _, _. split; [reflexivity|]. cbn.
    split; [reflexivity|].
    split; [split; [eauto | reflexivity]|].
    split; [|split; intros ? [=]].
    intros _. repeat split. unfold error_mentions. cbn.
    apply error_mentions_no_handler.
Qed.

Lemma route_never_throws_witness :
  (getHandler Samples.router_tor_disabled tor = Some Samples.tor_disabled
   ∧ isEnabled Samples.tor_disabled = false
   ∧ ∃ response,
       route Samples.router_tor_disabled (Samples.request_to (Some tor)) "conn_1_a"
       = (Js.Normal response, Samples.router_tor_disabled)
       ∧ response_error response = Some "Network tor is disabled")
  ∧ (getHandler Samples.router_throwing custom = Some Samples.throwing_handler
     ∧ isEnabled Samples.throwing_handler = true
     ∧ connect Samples.throwing_handler
       = (Js.Throws (Js.ErrorObject "proxy unreachable"),
          set_state error Samples.throwing_handler)
     ∧ ∃ response r',
         route Samples.router_throwing (Samples.request_to (Some custom)) "conn_1_a"
         = (Js.Normal response, r')
         ∧ success response = false
         ∧ response_error response = Some "proxy unreachable").
Proof.
  split.
  - assert (getHandler Samples.router_tor_disabled tor = Some Samples.tor_disabled)
      as Hget by reflexivity.
    assert (isEnabled Samples.tor_disabled = false) as Hoff by reflexivity.
    split; [exact Hget|]. split; [exact Hoff|].
    destruct (route_never_throws Samples.router_tor_disabled
                (Samples.request_to (Some tor)) "conn_1_a")
      as (response & r' & Hroute & _ & _ & _ & Hdisabled & _).
    destruct (Hdisabled _ Hget Hoff) as (-> & _ & Herr & _).
    exists response. split; [exact Hroute | exact Herr].
  - assert (getHandler Samples.router_throwing custom = Some Samples.throwing_handler)
      as Hget by reflexivity.
    assert (isEnabled Samples.throwing_handler = true) as Hon by reflexivity.
    split; [exact Hget|]. split; [exact Hon|]. split; [reflexivity|].
    destruct (route_never_throws Samples.router_throwing
                (Samples.request_to (Some custom)) "conn_1_a")
      as (response & r' & Hroute & _ & _ & _ & _ & Henabled).
    destruct (Henabled _ Hget Hon) as (Hconnect & _).
    destruct (Hconnect (Js.ErrorObject "proxy unreachable")
                (set_state error Samples.throwing_handler) eq_refl)
      as (Hfalse & Herr & _).
    exists response, r'. split; [exact Hroute|]. split; [exact Hfalse | exact Herr].
Defined.


(** *** [connectAll] and [disconnectAll] *)

Lemma map_get_set {V} (k t : NetworkType) (v : V) (m : list (NetworkType * V)) :
  map_get t (map_set k v m) = if decide (k = t) then Some v else map_get t m.
Proof.
  induction m as [|[k' v'] m IH]; cbn.
  - reflexivity.
  - destruct (decide (k' = k)) as [->|Hk]; cbn.
    + by destruct (decide (k = t)).
    + rewrite IH. destruct (decide (k' = t)) as [->|]; [|reflexivity].
      by rewrite decide_False.
Qed.

Lemma map_set_keys {V} (k : NetworkType) (v : V) (m : list (NetworkType * V)) :
  (map_set k v m).*1 = if decide (k ∈ m.*1) then m.*1 else m.*1 ++ [k].
Proof.
  induction m as [|[k' v'] m IH]; cbn.
  - rewrite decide_False; [reflexivity | apply not_elem_of_nil].
  - destruct (decide (k' = k)) as [->|Hk]; cbn.
    + rewrite decide_True; [reflexivity | by left].
    + rewrite IH. destruct (decide (k ∈ m.*1)) as [Hin|Hin].
      * rewrite decide_True; [reflexivity | by right].
      * rewrite decide_False; [reflexivity|].
        rewrite not_elem_of_cons. split; congruence.
Qed.

(** The constructor and [registerHandler] keep the keys distinct. *)
Lemma new_keys_unique : keys_unique Routing.new.
Proof. unfold keys_unique. cbn. apply NoDup_singleton. Qed.

Lemma registerHandler_keys_unique r h :
  keys_unique r → keys_unique (registerHandler r h).
Proof.
  unfold keys_unique, registerHandler. cbn. intros Hr.
  rewrite map_set_keys. case_decide; [assumption|].
  apply NoDup_app. split; [assumption|]. split.
  - intros x Hx Hx'. apply list_elem_of_singleton in Hx'. congruence.
  - apply NoDup_singleton.
Qed.

Lemma builtin_connect h :
  builtin h → connect h = (Js.Normal true, set_state connected h).
Proof. unfold builtin, connect. by destruct (kind h). Qed.

Lemma builtin_disconnect h :
  builtin h → disconnect h = (Js.Normal tt, set_state disconnected h).
Proof. unfold builtin, disconnect. by destruct (kind h). Qed.

(** A router that holds only instances of the six classes of the file is
    well behaved. *)
Lemma builtin_well_behaved r :
  (∀ t h, (t, h) ∈ handlers r → builtin h) → well_behaved r.
Proof.
  intros Hb t h Hin. specialize (Hb t h Hin). split.
  - intros _. eexists _, _. apply builtin_connect, Hb.
  - eexists. apply builtin_disconnect, Hb.
Qed.

Lemma connectAll_loop_spec entries :
  (∀ t h, (t, h) ∈ entries → isEnabled h = true → connects h) →
  ∀ results0,
  ∃ results hs,
    connectAll_loop entries results0 = (Js.Normal results, hs)
    ∧ (∀ t, t ∉ entries.*1 → map_get t results = map_get t results0)
    ∧ (NoDup entries.*1 → ∀ t h, map_get t entries = Some h →
       (isEnabled h = true →
          ∃ b h', connect h = (Js.Normal b, h')
                  ∧ map_get t results = Some b ∧ map_get t hs = Some h')
       ∧ (isEnabled h = false →
          map_get t results = Some false ∧ map_get t hs = Some h)).
Proof.
  induction entries as [|[t0 h0] rest IH]; intros Hok results0.
  - exists results0, []. cbn. repeat split; discriminate.
  - assert (∀ t h, (t, h) ∈ rest → isEnabled h = true → connects h) as Hrest
      by (intros t h Hin; apply (Hok t); by right).
    specialize (IH Hrest).
    cbn [connectAll_loop].
    destruct (isEnabled h0) eqn:Hen.
    + destruct (Hok t0 h0 ltac:(by left) Hen) as (b0 & h0' & Hc). rewrite Hc.
      destruct (IH (map_set t0 b0 results0)) as (results & hs & -> & Hout & Hin).
      exists results, ((t0, h0') :: hs). split; [reflexivity|]. split.
      * intros t. cbn. rewrite not_elem_of_cons. intros [Hne Hnotin].
        rewrite (Hout t Hnotin), map_get_set. by rewrite decide_False.
      * cbn. intros Hnd t h. apply NoDup_cons in Hnd as [Hfresh Hnd].
        destruct (decide (t0 = t)) as [<-|Hne].
        -- intros [= <-]. split; [|congruence].
           intros _. exists b0, h0'. split; [exact Hc|]. split; [|reflexivity].
           rewrite (Hout t0 Hfresh), map_get_set. by rewrite decide_True.
        -- apply (Hin Hnd).
    + destruct (IH (map_set t0 false results0)) as (results & hs & -> & Hout & Hin).
      exists results, ((t0, h0) :: hs). split; [reflexivity|]. split.
      * intros t. cbn. rewrite not_elem_of_cons. intros [Hne Hnotin].
        rewrite (Hout t Hnotin), map_get_set. by rewrite decide_False.
      * cbn. intros Hnd t h. apply NoDup_cons in Hnd as [Hfresh Hnd].
        destruct (decide (t0 = t)) as [<-|Hne].
        -- intros [= <-]. split; [congruence|].
           intros _. split; [|reflexivity].
           rewrite (Hout t0 Hfresh), map_get_set. by rewrite decide_True.
        -- apply (Hin Hnd).
Qed.

Lemma disconnectAll_loop_spec entries :
  (∀ t h, (t, h) ∈ entries → disconnects h) →
  ∃ hs,
    disconnectAll_loop entries = (Js.Normal tt, hs)
    ∧ ∀ t h, map_get t entries = Some h →
        ∃ h', disconnect h = (Js.Normal tt, h') ∧ map_get t hs = Some h'.
Proof.
  induction entries as [|[t0 h0] rest IH]; intros Hok.
  - exists []. cbn. split; [reflexivity | discriminate].
  - destruct IH as (hs & Hloop & Hget).
    { intros t h Hin. apply (Hok t). by right. }
    destruct (Hok t0 h0 ltac:(by left)) as (h0' & Hd).
    cbn [disconnectAll_loop]. rewrite Hd, Hloop.
    exists ((t0, h0') :: hs). split; [reflexivity|].
    intros t h. cbn. destruct (decide (t0 = t)) as [<-|Hne].
    + intros [= <-]. eauto.
    + apply Hget.
Qed.

(** C9, as the code has it. On a router whose handlers do not throw (as
    none of the six classes of the file does), [connectAll] returns a
    map that holds, for every registered handler, the result of its
    [connect] when it is enabled, and [false] when it is disabled, in
    which case the handler is left as it was; [disconnectAll] calls
    [disconnect] on every registered handler, enabled or disabled. For
    the six classes of the file [connect] returns [true] and leaves the
    state [connected], and [disconnect] leaves the state [disconnected]. *)
Theorem connectAll_disconnectAll r :
  keys_unique r → well_behaved r →
  ∃ results r1 r2,
    connectAll r = (Js.Normal results, r1)
    ∧ disconnectAll r = (Js.Normal tt, r2)
    ∧ ∀ t h, getHandler r t = Some h →
        (isEnabled h = true →
           ∃ b h', connect h = (Js.Normal b, h')
                   ∧ map_get t results = Some b ∧ getHandler r1 t = Some h')
        ∧ (isEnabled h = false →
           map_get t results = Some false ∧ getHandler r1 t = Some h)
        ∧ (∃ h', disconnect h = (Js.Normal tt, h') ∧ getHandler r2 t = Some h')
        ∧ (builtin h →
           connect h = (Js.Normal true, set_state connected h)
           ∧ disconnect h = (Js.Normal tt, set_state disconnected h)).
Proof.
  intros Hnd Hok. unfold connectAll, disconnectAll, getHandler.
  destruct (connectAll_loop_spec (handlers r)) with (results0 := @nil (NetworkType * bool))
    as (results & hs1 & -> & _ & Hc).
  { intros t h Hin. by apply (Hok t h Hin). }
  destruct (disconnectAll_loop_spec (handlers r)) as (hs2 & -> & Hd).
  { intros t h Hin. by apply (Hok t h Hin). }
  eexists _, _, _. split; [reflexivity|]. split; [reflexivity|].
  cbn. intros t h Hget.
  destruct (Hc Hnd t h Hget) as [Hon Hoff].
  split; [exact Hon|]. split; [exact Hoff|]. split; [by apply Hd|].
  intros Hb. split; [by apply builtin_connect | by apply builtin_disconnect].
Qed.

Lemma connectAll_disconnectAll_witness :
  keys_unique Samples.router_tor_disabled
  ∧ well_behaved Samples.router_tor_disabled
  ∧ ∃ results r1,
      connectAll Samples.router_tor_disabled = (Js.Normal results, r1)
      ∧ map_get tor results = Some false
      ∧ getHandler r1 tor = Some Samples.tor_disabled.
Proof.
  assert (keys_unique Samples.router_tor_disabled) as Hnd
    by (apply registerHandler_keys_unique, new_keys_unique).
  assert (well_behaved Samples.router_tor_disabled) as Hok.
  { apply builtin_well_behaved. intros t h Hin.
    apply elem_of_cons in Hin as [[= -> ->]|Hin]; [exact I|].
    apply list_elem_of_singleton in Hin as [= -> ->]. exact I. }
  split; [exact Hnd|]. split; [exact Hok|].
  destruct (connectAll_disconnectAll _ Hnd Hok)
    as (results & r1 & r2 & Hc & _ & Hall).
  exists results, r1. split; [exact Hc|].
  destruct (Hall tor Samples.tor_disabled eq_refl) as (_ & Hoff & _).
  apply Hoff. reflexivity.
Defined.

(** C9 as stated fails on its second part: [tor_disabled] is registered,
    disabled and connected, and [disconnectAll] does not skip it: it
    leaves it disconnected. *)
Lemma disconnectAll_counterexample :
  getHandler Samples.router_tor_disabled tor = Some Samples.tor_disabled
  ∧ isEnabled Samples.tor_disabled = false
  ∧ getState Samples.tor_disabled = connected
  ∧ (disconnectAll Samples.router_tor_disabled).1 = Js.Normal tt
  ∧ getState <$> getHandler (disconnectAll Samples.router_tor_disabled).2 tor
    = Some disconnected.
Proof. repeat split; vm_compute; reflexivity. Qed.

End RouterProperties.

(** * Further properties *)

(** Membership in a list that is written out. *)
Ltac elem_of_literal :=
  repeat first [ apply list_elem_of_here | apply list_elem_of_further ].

(** ** The operations of [PolicyManager] *)

Section PolicyManagerOperations.
Import Types PolicyManager Spec.

Lemma set_add_elem_of x y s : y ∈ set_add x s ↔ y = x ∨ y ∈ s.
Proof.
  unfold set_add. case_decide as Hin.
  - split; [by right | intros [->|]; assumption].
  - rewrite elem_of_app, list_elem_of_singleton. tauto.
Qed.

Lemma set_add_NoDup x s : NoDup s → NoDup (set_add x s).
Proof.
  intros Hs. unfold set_add. case_decide as Hin; [assumption|].
  apply NoDup_app. split; [assumption|]. split; [|apply NoDup_singleton].
  intros y Hy Hy'. apply list_elem_of_singleton in Hy'. congruence.
Qed.

(** The policies that are evaluated do not change when the policy
    stored under an identifier that is not active changes. *)
Lemma omap_lookup_irrelevant (m m' : gmap string SecurityPolicy) id (ids : list string) :
  id ∉ ids →
  (∀ id', id' ≠ id → m' !! id' = m !! id') →
  omap (λ i, m' !! i) ids = omap (λ i, m !! i) ids.
Proof.
  intros Hnotin Hsame.
  induction ids as [|i ids IH]; [reflexivity|].
  apply not_elem_of_cons in Hnotin as [Hne Hnotin].
  cbn. rewrite (Hsame i) by congruence. rewrite (IH Hnotin). reflexivity.
Qed.

Lemma omap_lookup_length (m : gmap string SecurityPolicy) (ids : list string) :
  (∀ id, id ∈ ids → is_Some (m !! id)) →
  length (omap (λ i, m !! i) ids) = length ids.
Proof.
  induction ids as [|i ids IH]; intros Hall; [reflexivity|].
  cbn. destruct (Hall i) as [p ->]; [by left|].
  cbn. rewrite IH; [reflexivity|]. intros id Hin. apply Hall. by right.
Qed.

(** X1. [createPolicy] stores the policy and does not activate it: with
    a new identifier that is not active, [getPolicy] returns the policy
    made of the arguments (level [warn] when none is given), the other
    policies are as before, the new policy is not active, and
    [evaluateConnection] returns what it returned before, for every
    context. *)
Theorem createPolicy_round_trip pm id name rs level :
  id ∉ activePolicies pm →
  let policy := (createPolicy pm id name rs level).1 in
  let pm' := (createPolicy pm id name rs level).2 in
  policy = {| policy_id := id; policy_name := name; rules := rs;
              enforcementLevel := default warn level |}
  ∧ getPolicy pm' id = Some policy
  ∧ (∀ id', id' ≠ id → getPolicy pm' id' = getPolicy pm id')
  ∧ isPolicyActive pm' id = false
  ∧ ∀ context, evaluateConnection pm' context = evaluateConnection pm context.
Proof.
  intros Hfresh. cbn. unfold getPolicy, isPolicyActive. cbn.
  split; [reflexivity|].
  split; [apply lookup_insert_eq|].
  split; [intros id' Hne; by apply lookup_insert_ne|].
  split; [by apply bool_decide_eq_false|].
  intros context. unfold evaluateConnection, getActivePolicies. cbn.
  rewrite (omap_lookup_irrelevant (policies pm) _ id); [reflexivity | assumption |].
  intros id' Hne. by apply lookup_insert_ne.
Qed.

Lemma createPolicy_round_trip_witness :
  evaluateConnection
    (createPolicy PolicyManager.new "policy_1700000000000_k3x9q2a1b"
       "Certificate trust" [Samples.promptRule] (Some strict)).2
    Samples.ctx_untrusted
  = evaluateConnection PolicyManager.new Samples.ctx_untrusted.
Proof.
  apply (createPolicy_round_trip PolicyManager.new "policy_1700000000000_k3x9q2a1b").
  intros Hin. apply list_elem_of_singleton in Hin. discriminate.
Defined.

(** X2. [removePolicy] returns [true] exactly when the policy existed;
    afterwards the policy is unknown and not active, the policies that
    are evaluated are the other active ones in their order, and the
    other policies are as before. *)
Theorem removePolicy_forgets pm id :
  let pm' := (removePolicy pm id).2 in
  ((removePolicy pm id).1 = true ↔ is_Some (getPolicy pm id))
  ∧ getPolicy pm' id = None
  ∧ isPolicyActive pm' id = false
  ∧ (∀ id', id' ≠ id →
       getPolicy pm' id' = getPolicy pm id'
       ∧ isPolicyActive pm' id' = isPolicyActive pm id')
  ∧ getActivePolicies pm'
    = omap (λ i, policies pm !! i) (filter (λ i, i ≠ id) (activePolicies pm)).
Proof.
  cbn. unfold getPolicy, isPolicyActive, getActivePolicies. cbn.
  split; [apply bool_decide_eq_true|].
  split; [apply lookup_delete_eq|].
  split.
  { apply bool_decide_eq_false. rewrite list_elem_of_filter. tauto. }
  split.
  - intros id' Hne. split; [by apply lookup_delete_ne|].
    apply bool_decide_ext. rewrite list_elem_of_filter. tauto.
  - apply omap_lookup_irrelevant with (id := id).
    + rewrite list_elem_of_filter. tauto.
    + intros id' Hne. by apply lookup_delete_ne.
Qed.

(** X3. [activatePolicy] on an unknown identifier returns [false] and
    changes nothing. On a known one it returns [true], the policy is
    active and evaluated, and the stored policies are untouched;
    activating an active policy changes nothing, so a policy is never
    evaluated twice. *)
Theorem activatePolicy_known_only pm id :
  (getPolicy pm id = None → activatePolicy pm id = (false, pm))
  ∧ (∀ policy, getPolicy pm id = Some policy →
       let pm' := (activatePolicy pm id).2 in
       (activatePolicy pm id).1 = true
       ∧ policies pm' = policies pm
       ∧ isPolicyActive pm' id = true
       ∧ policy ∈ getActivePolicies pm'
       ∧ (isPolicyActive pm id = true → pm' = pm)
       ∧ activatePolicy pm' id = (true, pm')).
Proof.
  unfold getPolicy, activatePolicy, isPolicyActive, getActivePolicies.
  split; [intros ->; reflexivity|].
  intros policy Hp. rewrite Hp. cbn. rewrite Hp.
  split; [reflexivity|]. split; [reflexivity|].
  assert (id ∈ set_add id (activePolicies pm)) as Hin
    by (apply set_add_elem_of; by left).
  split; [by apply bool_decide_eq_true|].
  split.
  { apply list_elem_of_omap. exists id. split; assumption. }
  split.
  - intros Hact. apply bool_decide_eq_true in Hact.
    unfold set_add. rewrite decide_True by assumption. by destruct pm.
  - f_equal. f_equal. unfold set_add at 1. by rewrite decide_True.
Qed.

Lemma activatePolicy_known_only_witness :
  activatePolicy PolicyManager.new "policy_0_unknown" = (false, PolicyManager.new).
Proof.
  apply (activatePolicy_known_only PolicyManager.new "policy_0_unknown").
  reflexivity.
Defined.

(** X4. The two fields of a manager stay consistent: the constructor
    makes them so, and [createPolicy], [activatePolicy],
    [deactivatePolicy] and [removePolicy] keep them so. In a consistent
    manager [getActivePolicies] drops nothing: it has one policy for each
    active identifier. *)
Theorem consistent_invariant :
  consistent PolicyManager.new
  ∧ ∀ pm, consistent pm →
      (∀ id name rs level, consistent (createPolicy pm id name rs level).2)
      ∧ (∀ id, consistent (activatePolicy pm id).2)
      ∧ (∀ id, consistent (deactivatePolicy pm id).2)
      ∧ (∀ id, consistent (removePolicy pm id).2)
      ∧ length (getActivePolicies pm) = length (activePolicies pm).
Proof.
  split.
  { split; cbn.
    - apply NoDup_singleton.
    - intros id Hin. apply list_elem_of_singleton in Hin as ->.
      rewrite lookup_insert_eq. eauto. }
  intros pm [Hnd Hall]. repeat split; cbn.
  - assumption.
  - intros id' Hin. apply lookup_insert_is_Some'. right. by apply Hall.
  - unfold activatePolicy. destruct (policies pm !! id); cbn;
      [by apply set_add_NoDup | assumption].
  - unfold activatePolicy. destruct (policies pm !! id) as [p|] eqn:Hp; cbn.
    + intros id' Hin. apply set_add_elem_of in Hin as [->|Hin];
        [rewrite Hp; eauto | by apply Hall].
    + assumption.
  - by apply NoDup_filter.
  - intros id' Hin. apply list_elem_of_filter in Hin as [_ Hin]. by apply Hall.
  - by apply NoDup_filter.
  - intros id' Hin. apply list_elem_of_filter in Hin as [Hne Hin].
    rewrite lookup_delete_ne by congruence. by apply Hall.
  - by apply omap_lookup_length.
Qed.

Lemma consistent_invariant_witness :
  consistent PolicyManager.new ∧ consistent Samples.pm_prompt.
Proof.
  destruct consistent_invariant as [Hnew Hstep].
  split; [exact Hnew|].
  unfold Samples.pm_prompt.
  destruct (Hstep _ Hnew) as (Hcreate & _).
  specialize (Hcreate "policy_1700000000000_k3x9q2a1b" "Certificate trust"
                      [Samples.promptRule] (Some strict)).
  destruct (Hstep _ Hcreate) as (_ & Hactivate & _).
  apply (Hactivate "policy_1700000000000_k3x9q2a1b").
Defined.

(** X5. [deactivatePolicy] returns [true] exactly when the policy was
    active; afterwards it is not active, while every policy is still
    stored and the other policies are active as before. When it was the
    only active policy, every connection is allowed afterwards: the
    default policy of a fresh manager can be switched off by one call. *)
Theorem deactivatePolicy_switches_off pm id :
  let pm' := (deactivatePolicy pm id).2 in
  ((deactivatePolicy pm id).1 = true ↔ isPolicyActive pm id = true)
  ∧ isPolicyActive pm' id = false
  ∧ policies pm' = policies pm
  ∧ (∀ id', id' ≠ id → isPolicyActive pm' id' = isPolicyActive pm id')
  ∧ (activePolicies pm = [id] →
     ∀ context, evaluateConnection pm' context
                = {| allowed := true; violations := []; warnings := [] |}).
Proof.
  cbn. unfold isPolicyActive. cbn.
  split; [reflexivity|].
  split.
  { apply bool_decide_eq_false. rewrite list_elem_of_filter. tauto. }
  split; [reflexivity|].
  split.
  { intros id' Hne. apply bool_decide_ext. rewrite list_elem_of_filter. tauto. }
  intros Hone context. unfold evaluateConnection, getActivePolicies. cbn.
  rewrite Hone. cbn. rewrite decide_False by tauto. reflexivity.
Qed.

Lemma deactivatePolicy_switches_off_witness :
  allowed (evaluateConnection
             (deactivatePolicy PolicyManager.new "default-anti-downgrade").2
             (Samples.ctx_tls (Some "1.0"))) = true.
Proof.
  destruct (deactivatePolicy_switches_off PolicyManager.new "default-anti-downgrade")
    as (_ & _ & _ & _ & Hoff).
  rewrite Hoff; reflexivity.
Defined.

Lemma combine_empty_r res : combine res emptyResult = res.
Proof.
  destruct res. unfold combine. cbn.
  by rewrite andb_true_r, !app_nil_r.
Qed.

Lemma evaluateOne_combine context policy a b r :
  evaluateOne context policy (combine a b) r
  = combine a (evaluateOne context policy b r).
Proof.
  destruct (evaluateRule r context) as [msg|] eqn:E.
  - rewrite !(evaluateOne_triggered _ _ _ _ _ E).
    case_match; unfold combine; cbn; rewrite ?app_assoc, ?andb_false_r; reflexivity.
  - by rewrite !(evaluateOne_silent _ _ _ _ E).
Qed.

Lemma evaluatePolicy_combine context policy a b :
  evaluatePolicy context (combine a b) policy
  = combine a (evaluatePolicy context b policy).
Proof.
  unfold evaluatePolicy. revert b.
  induction (rules policy) as [|r rs IH]; intros b; cbn; [reflexivity|].
  by rewrite evaluateOne_combine, IH.
Qed.

Lemma fold_evaluatePolicy_combine context ps a b :
  fold_left (evaluatePolicy context) ps (combine a b)
  = combine a (fold_left (evaluatePolicy context) ps b).
Proof.
  revert b. induction ps as [|p ps IH]; intros b; cbn; [reflexivity|].
  by rewrite evaluatePolicy_combine, IH.
Qed.

Lemma fold_evaluatePolicy_from_empty context ps res :
  fold_left (evaluatePolicy context) ps res
  = combine res (fold_left (evaluatePolicy context) ps emptyResult).
Proof.
  rewrite <- fold_evaluatePolicy_combine. by rewrite combine_empty_r.
Qed.

(** X6. Policies are evaluated independently of one another: the result
    of [evaluateConnection] is made of the results of the active
    policies, each evaluated on its own from the empty result. The
    violations, and the warnings, are theirs put end to end in the order
    of activation, and the connection is allowed when every one of them
    allows it. *)
Theorem evaluateConnection_by_policy pm context :
  let each := map (evaluatePolicy context emptyResult) (getActivePolicies pm) in
  let res := evaluateConnection pm context in
  violations res = concat (map violations each)
  ∧ warnings res = concat (map warnings each)
  ∧ allowed res = forallb allowed each.
Proof.
  cbn. unfold evaluateConnection.
  induction (getActivePolicies pm) as [|p ps IH]; cbn; [done|].
  rewrite fold_evaluatePolicy_from_empty. cbn.
  destruct IH as (-> & -> & ->). done.
Qed.

Lemma evaluateConnection_coherent pm context :
  coherent (getActivePolicies pm) context (evaluateConnection pm context).
Proof.
  unfold evaluateConnection.
  apply (fold_left_preserves (coherent (getActivePolicies pm) context)).
  - intros a policy Hp. by apply evaluatePolicy_coherent.
  - apply coherent_empty.
Qed.

(** X7. A connection can only be refused by a [deny] rule of a policy of
    level [block] or [strict]: when every active policy is of level
    [warn] or has no [deny] rule, every connection is allowed and there
    is no violation, whatever rules are triggered. *)
Theorem advisory_policies_never_block pm context :
  Forall advisory (getActivePolicies pm) →
  allowed (evaluateConnection pm context) = true
  ∧ violations (evaluateConnection pm context) = [].
Proof.
  intros Hadv.
  destruct (evaluateConnection_coherent pm context) as [Hiff Horigin].
  assert (violations (evaluateConnection pm context) = []) as Hnil.
  { destruct (violations (evaluateConnection pm context)) as [|v vs]; [reflexivity|].
    apply Forall_cons in Horigin as [(policy & r & Hp & Hr & _ & _ & Hdeny & Hlevel) _].
    rewrite Forall_forall in Hadv. destruct (Hadv policy Hp) as [Hw|Hnone].
    - contradiction.
    - rewrite Forall_forall in Hnone. by destruct (Hnone r Hr). }
  split; [|exact Hnil].
  destruct (allowed (evaluateConnection pm context)); [reflexivity|].
  by destruct (proj1 Hiff eq_refl).
Qed.

Lemma advisory_policies_never_block_witness :
  allowed (evaluateConnection
             (activatePolicy
                (deactivatePolicy Samples.pm_prompt "default-anti-downgrade").2
                "policy_1700000000000_k3x9q2a1b").2
             Samples.ctx_untrusted) = true.
Proof.
  apply advisory_policies_never_block.
  assert (getActivePolicies
            (activatePolicy
               (deactivatePolicy Samples.pm_prompt "default-anti-downgrade").2
               "policy_1700000000000_k3x9q2a1b").2
          = [Samples.prompt_policy]) as -> by (vm_compute; reflexivity).
  apply Forall_singleton. right. apply Forall_singleton. discriminate.
Defined.

Lemma unrecognised_rule_silent r context :
  recognised r = false → evaluateRule r context = None.
Proof.
  unfold recognised, evaluateRule, evaluateAntiDowngrade, evaluateCertificate, or_else.
  destruct (rule_type r); try reflexivity.
  - intros H. apply orb_false_iff in H as [H H3]. apply orb_false_iff in H as [H1 H2].
    by rewrite H1, H2, H3.
  - intros ->. by destruct (certificate context).
Qed.

(** X8. Rules that [evaluateRule] does not recognise never fire: a rule
    of kind [network] or [custom], an [anti-downgrade] rule whose
    condition is not one of the three strings the code compares with,
    and a [certificate] rule whose condition is not ["untrusted"]. A
    policy made of such rules leaves every result as it is, for every
    context and whatever its level. *)
Theorem unrecognised_rules_are_inert context res policy :
  Forall (λ r, recognised r = false) (rules policy) →
  Forall (λ r, evaluateRule r context = None) (rules policy)
  ∧ evaluatePolicy context res policy = res.
Proof.
  intros Hall. split.
  - eapply Forall_impl; [exact Hall|]. intros r. apply unrecognised_rule_silent.
  - unfold evaluatePolicy. revert res.
    induction Hall as [|r rs Hr _ IH]; intros res; cbn; [reflexivity|].
    rewrite evaluateOne_silent by by apply unrecognised_rule_silent.
    apply IH.
Qed.

Lemma unrecognised_rules_are_inert_witness :
  evaluatePolicy (Samples.ctx_tls (Some "1.0")) emptyResult Samples.tls13_policy
  = emptyResult.
Proof.
  apply unrecognised_rules_are_inert.
  apply Forall_singleton. reflexivity.
Defined.

(** *** Reading a version *)

Lemma append_nil_l (t : string) : "" +:+ t = t.
Proof. reflexivity. Qed.

Lemma append_cons c (s t : string) : String c s +:+ t = String c (s +:+ t).
Proof. reflexivity. Qed.

Lemma span_digits_app d rest :
  all_digits d = true → starts_with_digit rest = false →
  span_digits (d +:+ rest) = (d, rest).
Proof.
  intros Hd Hrest. induction d as [|c d IH].
  - rewrite append_nil_l. destruct rest as [|c r]; [reflexivity|].
    cbn in Hrest |- *. by rewrite Hrest.
  - cbn in Hd. apply andb_true_iff in Hd as [Hc Hd].
    rewrite append_cons. cbn. rewrite Hc, (IH Hd). reflexivity.
Qed.

Lemma match_version_skip p s :
  no_digit p = true → match_version (p +:+ s) = match_version s.
Proof.
  induction p as [|c p IH]; intros Hp; [reflexivity|].
  cbn in Hp. apply andb_true_iff in Hp as [Hc Hp].
  rewrite append_cons. cbn.
  apply negb_true_iff in Hc. rewrite Hc. by apply IH.
Qed.

Lemma match_version_numeral d s :
  numeral d → match_version (d +:+ s) = Some (match_here (d +:+ s)).
Proof.
  intros [Hne Hd]. destruct d as [|c d]; [done|].
  cbn in Hd. apply andb_true_iff in Hd as [Hc _].
  rewrite append_cons. cbn [match_version]. by rewrite Hc.
Qed.

Lemma match_version_no_digit v :
  no_digit v = true → match_version v = None.
Proof.
  induction v as [|c v IH]; intros Hv; [reflexivity|].
  cbn in Hv. apply andb_true_iff in Hv as [Hc Hv].
  cbn. apply negb_true_iff in Hc. rewrite Hc. by apply IH.
Qed.

(** X9. Only the first run of digits of a version string and the run
    that follows its dot are read; everything before and after is
    ignored. For text [p] without a digit, numerals [d1] and [d2], and
    [rest] not starting with a digit: [p d1.d2 rest] is read as the
    decimal [d1.d2] (so "TLSv1.3" is 1.3, and "1.2.9" is 1.2), and
    [p d1. rest] and [p d1 rest] are read as [d1.0]. *)
Theorem parseVersion_first_pair p d1 rest :
  no_digit p = true → numeral d1 → starts_with_digit rest = false →
  (∀ d2, numeral d2 →
     parseVersion (p +:+ d1 +:+ "." +:+ d2 +:+ rest) = Js.parseFloat_decimal d1 d2)
  ∧ parseVersion (p +:+ d1 +:+ "." +:+ rest) = Js.parseFloat_decimal d1 "0"
  ∧ (starts_with_dot rest = false →
     parseVersion (p +:+ d1 +:+ rest) = Js.parseFloat_decimal d1 "0").
Proof.
  intros Hp Hd1 Hrest. unfold parseVersion.
  split; [|split].
  - intros d2 [Hne2 Hd2].
    rewrite match_version_skip, match_version_numeral by assumption.
    unfold match_here.
    rewrite (span_digits_app d1) by (apply Hd1 || reflexivity).
    rewrite append_cons, append_nil_l.
    rewrite (span_digits_app d2) by assumption.
    destruct d2; [done|]. reflexivity.
  - rewrite match_version_skip, match_version_numeral by assumption.
    unfold match_here.
    rewrite (span_digits_app d1) by (apply Hd1 || reflexivity).
    rewrite append_cons, append_nil_l.
    rewrite <- (append_nil_l rest) at 1.
    rewrite (span_digits_app "") by (reflexivity || assumption).
    reflexivity.
  - intros Hdot.
    rewrite match_version_skip, match_version_numeral by assumption.
    unfold match_here.
    rewrite (span_digits_app d1) by (apply Hd1 || assumption).
    assert (match rest with String "."%char r => r | _ => rest end = rest) as ->.
    { destruct rest as [|c r]; [reflexivity|].
      destruct c as [[] [] [] [] [] [] [] []]; try reflexivity. discriminate. }
    rewrite <- (append_nil_l rest) at 1.
    rewrite (span_digits_app "") by (reflexivity || assumption).
    reflexivity.
Qed.

Lemma parseVersion_first_pair_witness :
  parseVersion "TLSv1.3" = Js.parseFloat_decimal "1" "3"
  ∧ parseVersion "1.2.9" = Js.parseFloat_decimal "1" "2".
Proof.
  assert (numeral "1") as H1 by by split.
  split.
  - destruct (parseVersion_first_pair "TLSv" "1" "" eq_refl H1 eq_refl) as [H _].
    apply (H "3"). by split.
  - destruct (parseVersion_first_pair "" "1" ".9" eq_refl H1 eq_refl) as [H _].
    apply (H "2"). by split.
Defined.

(** X10. A version string without any digit is read as the number 0: a
    fresh manager refuses every context whose [tlsVersion] is a non-empty
    string without a digit, through the TLS-floor rule. *)
Theorem version_without_digit_is_refused context v :
  tlsVersion context = Some v → v ≠ "" → no_digit v = true →
  parseVersion v = Js.zero
  ∧ allowed (evaluateConnection PolicyManager.new context) = false
  ∧ entry_of antiDowngradePolicy tlsFloorRule
      ("TLS version " +:+ v +:+ " is below minimum 1.2")
      ∈ violations (evaluateConnection PolicyManager.new context).
Proof.
  intros Hv Hne Hnd.
  assert (parseVersion v = Js.zero) as Hzero
    by (unfold parseVersion; by rewrite match_version_no_digit).
  split; [exact Hzero|].
  apply default_policy_blocks; [assumption..|].
  unfold compareTlsVersions. rewrite Hzero. vm_compute. reflexivity.
Qed.

Lemma version_without_digit_is_refused_witness :
  allowed (evaluateConnection PolicyManager.new (Samples.ctx_tls (Some "TLS"))) = false.
Proof.
  apply (version_without_digit_is_refused (Samples.ctx_tls (Some "TLS")) "TLS");
    [reflexivity | discriminate | reflexivity].
Defined.

(** *** The other two default rules *)

Lemma prefix_app w post : String.prefix w (w +:+ post) = true.
Proof.
  induction w as [|c w IH]; [by destruct post|].
  rewrite append_cons. cbn. by destruct (ascii_dec c c).
Qed.

Lemma includes_unfold s sub :
  Js.includes s sub
  = String.prefix sub s
    || match s with
       | EmptyString => false
       | String _ s' => Js.includes s' sub
       end.
Proof. by destruct s. Qed.

Lemma includes_app pre w post : Js.includes (pre +:+ w +:+ post) w = true.
Proof.
  induction pre as [|c pre IH].
  - rewrite append_nil_l, includes_unfold, prefix_app. reflexivity.
  - rewrite append_cons. cbn [Js.includes]. rewrite IH. apply orb_true_r.
Qed.

(** X11. Each of the other two rules of the default policy refuses on
    its own, whatever the TLS version: a fresh manager refuses every
    context whose cipher suite contains "RC4", "DES", "3DES" or "MD5"
    anywhere, and every context whose [certificateExpired] is [true]. *)
Theorem default_policy_blocks_weak_cipher_and_expiry context :
  let res := evaluateConnection PolicyManager.new context in
  (∀ c w pre post,
     cipherSuite context = Some c →
     w ∈ ["RC4"; "DES"; "3DES"; "MD5"] →
     c = pre +:+ w +:+ post →
     allowed res = false
     ∧ entry_of antiDowngradePolicy weakCipherRule
         ("Weak cipher suite detected: " +:+ c) ∈ violations res)
  ∧ (certificateExpired context = Some true →
     allowed res = false
     ∧ entry_of antiDowngradePolicy certificateExpiredRule
         "Certificate has expired" ∈ violations res).
Proof.
  assert (antiDowngradePolicy ∈ getActivePolicies PolicyManager.new) as Hactive
    by (rewrite getActivePolicies_new; by left).
  cbn. split.
  - intros c w pre post Hc Hw ->.
    assert (evaluateRule weakCipherRule context
            = Some ("Weak cipher suite detected: " +:+ pre +:+ w +:+ post)) as Hfire.
    { unfold evaluateRule, evaluateAntiDowngrade. cbn -[existsb Js.includes].
      rewrite Hc.
      assert (existsb (λ w0, Js.includes (pre +:+ w +:+ post) w0)
                ["RC4"; "DES"; "3DES"; "MD5"] = true) as ->.
      { apply existsb_exists. exists w. split; [by apply list_elem_of_In|].
        apply includes_app. }
      assert (negb (Js.str_eq (pre +:+ w +:+ post) "") = true) as ->; [|reflexivity].
      apply negb_true_iff, String.eqb_neq.
      destruct pre; [|discriminate]. rewrite append_nil_l.
      repeat (apply elem_of_cons in Hw as [->|Hw]; [discriminate|]).
      by apply elem_of_nil in Hw. }
    pose proof (evaluateConnection_recorded _ _ _ weakCipherRule _ Hactive
                  ltac:(elem_of_literal) Hfire) as Hrec.
    apply recorded_blocking in Hrec as [Hin Hno]; [auto | reflexivity | discriminate].
  - intros Hexp.
    assert (evaluateRule certificateExpiredRule context
            = Some "Certificate has expired") as Hfire.
    { unfold evaluateRule, evaluateAntiDowngrade. cbn. by rewrite Hexp. }
    pose proof (evaluateConnection_recorded _ _ _ certificateExpiredRule _ Hactive
                  ltac:(elem_of_literal) Hfire) as Hrec.
    apply recorded_blocking in Hrec as [Hin Hno]; [auto | reflexivity | discriminate].
Qed.

Lemma default_policy_blocks_weak_cipher_and_expiry_witness :
  allowed (evaluateConnection PolicyManager.new Samples.ctx_rc4) = false.
Proof.
  destruct (default_policy_blocks_weak_cipher_and_expiry Samples.ctx_rc4) as [Hweak _].
  apply (Hweak "TLS_RSA_WITH_RC4_128_SHA" "RC4" "TLS_RSA_WITH_" "_128_SHA");
    [reflexivity | elem_of_literal | reflexivity].
Defined.

End PolicyManagerOperations.

(** ** The operations of [PKIManager] *)

Section PKIManagerOperations.
Import Types PKIManager.

(** X12. Trust follows the set of trusted issuers. After
    [addTrustedIssuer] of its issuer a certificate verifies as trusted,
    without warning; after [removeTrustedIssuer] of its issuer a
    certificate that is not private verifies as untrusted, with the
    warning. [removeTrustedIssuer] returns [true] exactly when the issuer
    was trusted. Changes to other issuers change no verification, and no
    change to the set changes [valid] or [errors]. *)
Theorem trusted_issuers_decide_trust pki now cert :
  let added := addTrustedIssuer pki (issuer cert) in
  let removed := (removeTrustedIssuer pki (issuer cert)).2 in
  isTrustedIssuer added (issuer cert) = true
  ∧ trusted (verifyCertificate added now cert) = true
  ∧ warnings (verifyCertificate added now cert) = []
  ∧ ((removeTrustedIssuer pki (issuer cert)).1 = true
     ↔ isTrustedIssuer pki (issuer cert) = true)
  ∧ isTrustedIssuer removed (issuer cert) = false
  ∧ (isPrivate cert = false →
     trusted (verifyCertificate removed now cert) = false
     ∧ warnings (verifyCertificate removed now cert)
       = ["Certificate issuer is not in trusted list"])
  ∧ (∀ other, other ≠ issuer cert →
     verifyCertificate (addTrustedIssuer pki other) now cert
     = verifyCertificate pki now cert
     ∧ verifyCertificate (removeTrustedIssuer pki other).2 now cert
       = verifyCertificate pki now cert)
  ∧ (∀ pki', valid (verifyCertificate pki' now cert) = valid (verifyCertificate pki now cert)
             ∧ errors (verifyCertificate pki' now cert)
               = errors (verifyCertificate pki now cert)).
Proof.
  cbn.
  assert (∀ p, issuer cert ∈ trustedIssuers p →
               trusted (verifyCertificate p now cert) = true
               ∧ warnings (verifyCertificate p now cert) = []) as Hin.
  { intros p Hp. destruct (verifyCertificate_trust p now cert) as [-> ->].
    by rewrite bool_decide_eq_true_2. }
  assert (∀ p p', (issuer cert ∈ trustedIssuers p ↔ issuer cert ∈ trustedIssuers p') →
                  verifyCertificate p now cert = verifyCertificate p' now cert) as Hsame.
  { intros p p' Hiff. unfold verifyCertificate, checkTrust.
    by rewrite (bool_decide_ext _ _ Hiff). }
  assert (issuer cert ∈ ({[issuer cert]} ∪ trustedIssuers pki : gset string)) as Hadded
    by (apply elem_of_union; left; by apply elem_of_singleton).
  assert (issuer cert ∉ (trustedIssuers pki ∖ {[issuer cert]} : gset string)) as Hremoved
    by (rewrite elem_of_difference, elem_of_singleton; tauto).
  split; [by apply bool_decide_eq_true|].
  split; [by apply Hin|].
  split; [by apply Hin|].
  split; [reflexivity|].
  split; [by apply bool_decide_eq_false|].
  split.
  { intros Hpriv.
    match goal with |- context [verifyCertificate ?p now cert] =>
      destruct (verifyCertificate_trust p now cert) as [-> ->]
    end.
    cbn. by rewrite Hpriv, bool_decide_eq_false_2. }
  split.
  { intros other Hne. split; apply Hsame; cbn.
    - rewrite elem_of_union, elem_of_singleton.
      split; [intros [?|?]; [congruence | assumption] | by right].
    - rewrite elem_of_difference, elem_of_singleton.
      split; [tauto | intros ?; split; [assumption | congruence]]. }
  intros pki'.
  destruct (verifyCertificate_temporal pki' now cert) as [-> ->].
  destruct (verifyCertificate_temporal pki now cert) as [-> ->]. done.
Qed.

Lemma trusted_issuers_decide_trust_witness :
  trusted (verifyCertificate
             (removeTrustedIssuer PKIManager.new "CN=Unknown CA").2
             500 Samples.untrusted_certificate) = false.
Proof.
  destruct (trusted_issuers_decide_trust PKIManager.new 500 Samples.untrusted_certificate)
    as (_ & _ & _ & _ & _ & Hremoved & _).
  apply Hremoved. reflexivity.
Defined.

(** X13. [verifyCertificate] reads four fields of the certificate,
    [validFrom], [validTo], [issuer] and [isPrivate], and the set of
    trusted issuers. It never reads the [trusted] bit that the
    certificate carries, nor the stored certificates: two certificates
    that agree on the four fields verify alike in two stores that trust
    the same issuers. *)
Theorem verifyCertificate_ignores_stale_trust pki pki' now c c' :
  validFrom c = validFrom c' →
  validTo c = validTo c' →
  issuer c = issuer c' →
  isPrivate c = isPrivate c' →
  trustedIssuers pki = trustedIssuers pki' →
  verifyCertificate pki now c = verifyCertificate pki' now c'.
Proof.
  intros Hfrom Hto Hissuer Hprivate Hset.
  unfold verifyCertificate, checkTrust, checkNotAfter, checkNotBefore.
  by rewrite Hfrom, Hto, Hissuer, Hprivate, Hset.
Qed.

Lemma verifyCertificate_ignores_stale_trust_witness :
  verifyCertificate PKIManager.new 500 Samples.untrusted_certificate
  = verifyCertificate
      (addCertificate PKIManager.new "cert_1700000000000_a1b2c3d4e"
         Samples.untrusted_certificate).2
      500 Samples.claimed_trusted_certificate.
Proof.
  apply verifyCertificate_ignores_stale_trust; reflexivity.
Defined.

(** X14. Certificates are stored by the generated identifier. With an
    identifier that is not yet in the store, [addCertificate] returns
    the certificate with that identifier and every other field as
    given, [getCertificate] finds it, the count grows by one, and the
    other certificates and the trusted issuers are untouched;
    [removeCertificate] then returns [true] and gives back the store of
    before. On an identifier that is not stored, [getCertificate]
    returns nothing and [removeCertificate] returns [false] and changes
    nothing. *)
Theorem certificate_store_round_trip pki id cert :
  getCertificate pki id = None →
  let stored := (addCertificate pki id cert).1 in
  let pki' := (addCertificate pki id cert).2 in
  stored = with_id id cert
  ∧ getCertificate pki' id = Some stored
  ∧ getCertificateCount pki' = S (getCertificateCount pki)
  ∧ (∀ id', id' ≠ id → getCertificate pki' id' = getCertificate pki id')
  ∧ trustedIssuers pki' = trustedIssuers pki
  ∧ removeCertificate pki' id = (true, pki)
  ∧ removeCertificate pki id = (false, pki).
Proof.
  unfold getCertificate, getCertificateCount, removeCertificate. cbn.
  intros Hfresh.
  split; [reflexivity|].
  split; [apply lookup_insert_eq|].
  split; [by apply map_size_insert_None|].
  split; [intros id' Hne; by apply lookup_insert_ne|].
  split; [reflexivity|].
  split.
  - rewrite lookup_insert_eq, bool_decide_eq_true_2 by eauto.
    rewrite delete_insert_eq, delete_id by assumption. by destruct pki.
  - rewrite Hfresh, bool_decide_eq_false_2 by by intros [? ?].
    rewrite delete_id by assumption. by destruct pki.
Qed.

Lemma certificate_store_round_trip_witness :
  getCertificate
    (addCertificate PKIManager.new "cert_1700000000000_a1b2c3d4e"
       Samples.untrusted_certificate).2
    "cert_1700000000000_a1b2c3d4e"
  = Some (with_id "cert_1700000000000_a1b2c3d4e" Samples.untrusted_certificate).
Proof.
  apply (certificate_store_round_trip PKIManager.new). reflexivity.
Defined.

(** X15. A generated self-signed certificate is its own issuer, is
    private, carries [trusted = true] and is stored under its
    identifier. It verifies as trusted, without warning, in every state
    of the trusted issuers, at every time, and it is valid, without
    error, from its [validFrom] to its [validTo]. The trusted issuers
    are not changed: the subject does not become a trusted issuer. *)
Theorem self_signed_is_trusted addDays pki key id serial now1 now2 subj days :
  let cert :=
    (generateSelfSignedCertificate addDays pki key id serial now1 now2 subj days).1 in
  let pki' :=
    (generateSelfSignedCertificate addDays pki key id serial now1 now2 subj days).2 in
  subject cert = subj
  ∧ issuer cert = subj
  ∧ isPrivate cert = true
  ∧ Types.trusted cert = true
  ∧ validFrom cert = now1
  ∧ getCertificate pki' id = Some cert
  ∧ trustedIssuers pki' = trustedIssuers pki
  ∧ ∀ t, trusted (verifyCertificate pki' t cert) = true
         ∧ warnings (verifyCertificate pki' t cert) = []
         ∧ (validFrom cert ≤ t ≤ validTo cert →
            valid (verifyCertificate pki' t cert) = true
            ∧ errors (verifyCertificate pki' t cert) = []).
Proof.
  cbn -[days_365]. unfold getCertificate. cbn -[days_365].
  do 5 (split; [reflexivity|]).
  split; [apply lookup_insert_eq|].
  split; [reflexivity|].
  intros t.
  match goal with |- context [verifyCertificate ?p t ?c] =>
    destruct (verifyCertificate_trust p t c) as [-> ->];
    destruct (verifyCertificate_temporal p t c) as [-> ->]
  end.
  cbn -[days_365]. rewrite orb_true_r.
  split; [reflexivity|]. split; [reflexivity|].
  intros [Hfrom Hto].
  destruct (Z.gtb_spec now1 t), (Z.ltb_spec (addDays now2 (default days_365 days)) t);
    cbn; try lia. done.
Qed.

Lemma self_signed_is_trusted_witness :
  valid (verifyCertificate
           (generateSelfSignedCertificate (λ t _, t + 31536000000) PKIManager.new
              "key" "cert_1700000000000_a1b2c3d4e" "0A1B" 1000 1000
              "CN=internal" None).2
           1000
           (generateSelfSignedCertificate (λ t _, t + 31536000000) PKIManager.new
              "key" "cert_1700000000000_a1b2c3d4e" "0A1B" 1000 1000
              "CN=internal" None).1) = true.
Proof.
  destruct (self_signed_is_trusted (λ t _, t + 31536000000) PKIManager.new
              "key" "cert_1700000000000_a1b2c3d4e" "0A1B" 1000 1000
              "CN=internal" None) as (_ & _ & _ & _ & _ & _ & _ & Hverify).
  destruct (Hverify 1000) as (_ & _ & Hvalid).
  apply Hvalid. cbn. lia.
Defined.

End PKIManagerOperations.

(** ** [SecurityLevelManager] *)

Section SecurityLevels.
Import Types SecurityLevelManager.

Lemma last_cons_default {A} (x : A) l d d' :
  List.last (x :: l) d = List.last (x :: l) d'.
Proof.
  revert x. induction l as [|y l IH]; intros x; [reflexivity|].
  change (List.last (y :: l) d = List.last (y :: l) d'). apply IH.
Qed.

(** X16. The table of a [SecurityLevelManager] has a configuration for
    each of the three levels, whatever levels were set before, so
    [getCurrentConfig] never falls back to the standard one and never
    returns [undefined]: after any sequence of [setLevel] the current
    level is the last one set, and [getCurrentConfig] is [getConfig] of
    it. Every configuration requires certificate validation and refuses
    self-signed certificates. *)
Theorem current_config_is_level_config (levels : list SecurityLevel) :
  let m := fold_left setLevel levels SecurityLevelManager.new in
  getCurrentLevel m = List.last levels standard
  ∧ getCurrentConfig m = getConfig m (getCurrentLevel m)
  ∧ ∀ level, ∃ c,
      getConfig m level = Some c
      ∧ requireCertificateValidation c = true
      ∧ allowSelfSigned c = false.
Proof.
  cbn.
  assert (∀ m0,
            levelConfigs (fold_left setLevel levels m0) = levelConfigs m0
            ∧ getCurrentLevel (fold_left setLevel levels m0)
              = List.last levels (currentLevel m0)) as Hfold.
  { induction levels as [|l ls IH]; intros m0; [done|].
    cbn [fold_left]. destruct (IH (setLevel m0 l)) as [-> ->].
    split; [reflexivity|]. destruct ls as [|l' ls]; [reflexivity|].
    change (List.last (l' :: ls) (currentLevel (setLevel m0 l))
            = List.last (l' :: ls) (currentLevel m0)).
    apply last_cons_default. }
  destruct (Hfold SecurityLevelManager.new) as [Hconfigs Hlevel].
  assert (∀ level, ∃ c,
            level_get level (levelConfigs SecurityLevelManager.new) = Some c
            ∧ requireCertificateValidation c = true
            ∧ allowSelfSigned c = false) as Htable
    by (intros []; eexists; repeat split; reflexivity).
  split; [exact Hlevel|].
  unfold getCurrentConfig, getConfig, getCurrentLevel. rewrite Hconfigs.
  split; [|exact Htable].
  by destruct (Htable (currentLevel (fold_left setLevel levels SecurityLevelManager.new)))
    as (c & -> & _).
Qed.

End SecurityLevels.

(** ** The operations of [UnifiedRouter] *)

Section RouterOperations.
Import Types Routing Spec.

Lemma map_get_filter {V} (t t' : NetworkType) (m : list (NetworkType * V)) :
  map_get t' (filter (λ e, e.1 ≠ t) m)
  = if decide (t' = t) then None else map_get t' m.
Proof.
  induction m as [|[k v] m IH]; [by case_decide|].
  rewrite filter_cons. cbn. destruct (decide (k ≠ t)) as [Hk|Hk]; cbn.
  - rewrite IH. destruct (decide (k = t')) as [->|]; [|reflexivity].
    by rewrite decide_False.
  - apply dec_stable in Hk as ->. rewrite IH.
    destruct (decide (t' = t)) as [->|]; [reflexivity|].
    by rewrite decide_False.
Qed.

Lemma map_set_get_id {V} (t : NetworkType) (v : V) (m : list (NetworkType * V)) :
  map_get t m = Some v → map_set t v m = m.
Proof.
  induction m as [|[k v'] m IH]; cbn; [discriminate|].
  destruct (decide (k = t)) as [->|]; [by intros [= ->]|].
  intros H. by rewrite IH.
Qed.

(** X17. The registry of handlers is keyed by the network of the
    handler. After [registerHandler] the handler is found under its
    network, the last registration winning, the handlers of the other
    networks and the default network are as before, and a network that
    was registered keeps its place in [getRegisteredNetworks] while a new
    one comes last. [unregisterHandler] returns [true] exactly when a
    handler was registered; afterwards none is found for that network and
    the others are as before. Neither creates a duplicate key. *)
Theorem handler_registry_round_trip r h :
  let r' := registerHandler r h in
  getHandler r' (getType h) = Some h
  ∧ (∀ t, t ≠ getType h → getHandler r' t = getHandler r t)
  ∧ defaultNetwork r' = defaultNetwork r
  ∧ getRegisteredNetworks r'
    = (if decide (getType h ∈ getRegisteredNetworks r)
       then getRegisteredNetworks r
       else getRegisteredNetworks r ++ [getType h])
  ∧ (keys_unique r → keys_unique r')
  ∧ ∀ t,
      let r'' := (unregisterHandler r t).2 in
      ((unregisterHandler r t).1 = true ↔ registered r t)
      ∧ getHandler r'' t = None
      ∧ (∀ t', t' ≠ t → getHandler r'' t' = getHandler r t')
      ∧ (keys_unique r → keys_unique r'').
Proof.
  cbn. unfold getHandler, getRegisteredNetworks. cbn.
  split; [rewrite map_get_set; by rewrite decide_True|].
  split; [intros t Hne; rewrite map_get_set; by rewrite decide_False|].
  split; [reflexivity|].
  split; [apply map_set_keys|].
  split; [apply registerHandler_keys_unique|].
  intros t.
  split; [apply map_has_registered|].
  split; [rewrite map_get_filter; by rewrite decide_True|].
  split; [intros t' Hne; rewrite map_get_filter; by rewrite decide_False|].
  unfold keys_unique. cbn. intros Hnd.
  induction (handlers r) as [|[k v] m IH]; [constructor|].
  cbn in Hnd. apply NoDup_cons in Hnd as [Hk Hnd].
  rewrite filter_cons. cbn. case_decide; [|by apply IH].
  cbn. apply NoDup_cons. split; [|by apply IH].
  intros Hin. apply Hk. apply list_elem_of_fmap in Hin as ([k' v'] & -> & Hin).
  apply list_elem_of_filter in Hin as [_ Hin].
  apply list_elem_of_fmap. by exists (k', v').
Qed.

Lemma handler_registry_round_trip_witness :
  keys_unique Samples.router_all ∧ getHandler Samples.router_all custom = None.
Proof.
  destruct (handler_registry_round_trip Routing.new (new_TorHandler no_config))
    as (_ & _ & _ & _ & H1 & _).
  destruct (handler_registry_round_trip
              (registerHandler Routing.new (new_TorHandler no_config))
              (new_I2PHandler no_config)) as (_ & _ & _ & _ & H2 & _).
  destruct (handler_registry_round_trip
              (registerHandler (registerHandler Routing.new (new_TorHandler no_config))
                 (new_I2PHandler no_config))
              (new_DVPNHandler no_config)) as (_ & _ & _ & _ & H3 & _).
  destruct (handler_registry_round_trip
              (registerHandler
                 (registerHandler (registerHandler Routing.new (new_TorHandler no_config))
                    (new_I2PHandler no_config))
                 (new_DVPNHandler no_config))
              (new_GNUnetHandler no_config)) as (_ & Hother & _ & _ & H4 & _).
  split.
  - apply H4, H3, H2, H1, new_keys_unique.
  - unfold Samples.router_all. cbn zeta. rewrite Hother by discriminate. reflexivity.
Defined.

(** X18. [setDefaultNetwork] accepts only a registered network: for an
    unregistered one it throws and changes nothing, for a registered one
    it makes it the default. [unregisterHandler] has no such care: after
    the default network is unregistered it is still the default, the
    [standard] level still selects it, and every request that names no
    network fails with "No handler registered for network type". *)
Theorem default_network_can_dangle r :
  (∀ t, ¬ registered r t →
     setDefaultNetwork r t
     = (Js.Throws (Js.ErrorObject
          ("Network handler for " +:+ NetworkType_name t +:+ " is not registered")), r))
  ∧ (∀ t, registered r t →
     setDefaultNetwork r t
     = (Js.Normal tt, {| handlers := handlers r; defaultNetwork := t |}))
  ∧ let r' := (unregisterHandler r (defaultNetwork r)).2 in
    defaultNetwork r' = defaultNetwork r
    ∧ ¬ registered r' (defaultNetwork r')
    ∧ selectNetworkForSecurity r' standard = defaultNetwork r
    ∧ ∀ request connId,
        preferredNetwork request = None →
        route r' request connId
        = (Js.Normal (failure (defaultNetwork r)
                        ("No handler registered for network type: "
                         +:+ NetworkType_name (defaultNetwork r))), r').
Proof.
  split; [|split].
  - intros t Hno. unfold setDefaultNetwork.
    apply map_has_not_registered in Hno. by rewrite Hno.
  - intros t Hreg. unfold setDefaultNetwork.
    apply map_has_registered in Hreg. by rewrite Hreg.
  - cbn. unfold registered, getHandler. cbn.
    assert (map_get (defaultNetwork r)
              (filter (λ e, e.1 ≠ defaultNetwork r) (handlers r)) = None) as Hgone
      by (rewrite map_get_filter; by rewrite decide_True).
    split; [reflexivity|].
    split; [rewrite Hgone; by intros [? ?]|].
    split; [reflexivity|].
    intros request connId Hpref. unfold route. cbn. rewrite Hpref. cbn.
    by rewrite Hgone.
Qed.

Lemma default_network_can_dangle_witness :
  registered Routing.new clearnet
  ∧ setDefaultNetwork Routing.new clearnet = (Js.Normal tt, Routing.new)
  ∧ (route (unregisterHandler Routing.new clearnet).2
        (Samples.request_to None) "conn_1_a").1
    = Js.Normal (failure clearnet "No handler registered for network type: clearnet").
Proof.
  assert (registered Routing.new clearnet) as Hreg by (vm_compute; eauto).
  destruct (default_network_can_dangle Routing.new) as (_ & Hset & _ & _ & _ & Hroute).
  split; [exact Hreg|]. split; [exact (Hset clearnet Hreg)|].
  exact (f_equal fst (Hroute (Samples.request_to None) "conn_1_a" eq_refl)).
Defined.

(** X19. As long as the default network is registered,
    [selectNetworkForSecurity] returns a registered network, for every
    level. *)
Theorem selection_is_registered r level :
  registered r (defaultNetwork r) →
  registered r (selectNetworkForSecurity r level).
Proof.
  intros Hdefault. unfold selectNetworkForSecurity.
  destruct level; [assumption|..].
  - destruct (map_has dvpn (handlers r)) eqn:Hdvpn; [by apply map_has_registered|].
    destruct (map_has gnunet (handlers r)) eqn:Hgnunet; [by apply map_has_registered|].
    destruct (map_has tor (handlers r)) eqn:Htor; [by apply map_has_registered|].
    assumption.
  - destruct (map_has tor (handlers r)) eqn:Htor; [by apply map_has_registered|].
    destruct (map_has i2p (handlers r)) eqn:Hi2p; [by apply map_has_registered|].
    assumption.
Qed.

Lemma selection_is_registered_witness :
  registered Samples.router_all (selectNetworkForSecurity Samples.router_all elevated).
Proof.
  apply selection_is_registered. vm_compute. eauto.
Defined.

(** X20. [selectNetworkForSecurity] does not look at whether a handler
    is enabled. While a disabled tor handler is registered, [maximum]
    selects tor, even if an enabled i2p handler is registered, and a
    request routed to the selected network fails with "Network tor is
    disabled"; likewise [elevated] selects a disabled dvpn. *)
Theorem selection_ignores_enabled r h request connId :
  isEnabled h = false →
  (getHandler r tor = Some h →
     selectNetworkForSecurity r maximum = tor
     ∧ (preferredNetwork request = Some (selectNetworkForSecurity r maximum) →
        route r request connId
        = (Js.Normal (failure tor "Network tor is disabled"), r)))
  ∧ (getHandler r dvpn = Some h →
     selectNetworkForSecurity r elevated = dvpn
     ∧ (preferredNetwork request = Some (selectNetworkForSecurity r elevated) →
        route r request connId
        = (Js.Normal (failure dvpn "Network dvpn is disabled"), r))).
Proof.
  intros Hoff. unfold getHandler. split; intros Hget.
  - assert (selectNetworkForSecurity r maximum = tor) as Hsel.
    { unfold selectNetworkForSecurity, map_has. rewrite Hget.
      by rewrite bool_decide_eq_true_2. }
    split; [exact Hsel|]. rewrite Hsel. intros Hpref.
    unfold route. rewrite Hpref. cbn. by rewrite Hget, Hoff.
  - assert (selectNetworkForSecurity r elevated = dvpn) as Hsel.
    { unfold selectNetworkForSecurity, map_has. rewrite Hget.
      by rewrite bool_decide_eq_true_2. }
    split; [exact Hsel|]. rewrite Hsel. intros Hpref.
    unfold route. rewrite Hpref. cbn. by rewrite Hget, Hoff.
Qed.

Lemma selection_ignores_enabled_witness :
  registered Samples.router_tor_disabled_i2p i2p
  ∧ selectNetworkForSecurity Samples.router_tor_disabled_i2p maximum = tor
  ∧ route Samples.router_tor_disabled_i2p (Samples.request_to (Some tor)) "conn_1_a"
    = (Js.Normal (failure tor "Network tor is disabled"), Samples.router_tor_disabled_i2p).
Proof.
  split; [vm_compute; eauto|].
  destruct (selection_ignores_enabled Samples.router_tor_disabled_i2p
              Samples.tor_disabled (Samples.request_to (Some tor)) "conn_1_a" eq_refl)
    as [Htor _].
  destruct (Htor eq_refl) as [Hsel Hroute].
  split; [exact Hsel|]. apply Hroute. by rewrite Hsel.
Defined.

(** *** [route] on an enabled handler *)

Lemma set_state_same s h : state h = s → set_state s h = h.
Proof. intros <-. by destruct h. Qed.

(** [route] on a registered and enabled handler is its [try] block
    followed by its [catch] clause. *)
Lemma route_enabled r request connId h :
  let t := default (defaultNetwork r) (preferredNetwork request) in
  getHandler r t = Some h → isEnabled h = true →
  route r request connId
  = (match (route_try request t connId h).1 with
     | Js.Normal response => Js.Normal response
     | Js.Throws e => Js.Normal (route_catch t e)
     end,
     with_handler r t (route_try request t connId h).2).
Proof.
  cbn. unfold getHandler, route. intros -> ->. cbn.
  by destruct (route_try _ _ _ _) as [[?|?] ?].
Qed.

Lemma handler_route_builtin address h :
  builtin h → ∃ resolved,
    handler_route address h = (Js.Normal resolved, h)
    ∧ (kind h = ClearnetHandler → resolved = address).
Proof.
  unfold builtin, handler_route.
  destruct (kind h); intros Hb; try done; eexists; split; try reflexivity; done.
Qed.

Lemma route_try_builtin request t connId h :
  builtin h → ∃ resolved,
    handler_route (request_address request) (set_state connected h)
    = (Js.Normal resolved, set_state connected h)
    ∧ (kind h = ClearnetHandler → resolved = request_address request)
    ∧ route_try request t connId h
      = (Js.Normal (success_response request t resolved connId),
         set_state connected h).
Proof.
  intros Hb.
  destruct (handler_route_builtin (request_address request) (set_state connected h) Hb)
    as (resolved & Hroute & Hclear).
  exists resolved. split; [exact Hroute|]. split; [exact Hclear|].
  unfold route_try, bind, ret. fold (request_address request).
  case_bool_decide as Hstate.
  - rewrite (builtin_connect h Hb), Hroute. reflexivity.
  - rewrite <- (set_state_same connected h Hstate) at 1.
    rewrite Hroute. reflexivity.
Qed.

(** X21. A request for a network whose handler is registered, enabled
    and of one of the six classes of the file succeeds. The response has
    [success = true], the network asked for, the address as the handler
    resolves it (the address itself for the clearnet class), where the
    address is the handle if there is one and else the URL, the
    connection identifier, the security level of the request
    ([standard] when it has none) and its space, and no error.
    Afterwards that handler is connected and the other handlers are as
    before. *)
Theorem route_succeeds_on_enabled_handler r request connId h :
  let t := default (defaultNetwork r) (preferredNetwork request) in
  getHandler r t = Some h → isEnabled h = true → builtin h →
  ∃ resolved,
    handler_route (request_address request) (set_state connected h)
    = (Js.Normal resolved, set_state connected h)
    ∧ (kind h = ClearnetHandler → resolved = request_address request)
    ∧ route r request connId
      = (Js.Normal (success_response request t resolved connId),
         with_handler r t (set_state connected h))
    ∧ getHandler (with_handler r t (set_state connected h)) t
      = Some (set_state connected h)
    ∧ ∀ t', t' ≠ t →
        getHandler (with_handler r t (set_state connected h)) t' = getHandler r t'.
Proof.
  intros t Hget Hon Hb.
  destruct (route_try_builtin request t connId h Hb) as (resolved & Hroute & Hclear & Htry).
  exists resolved. split; [exact Hroute|]. split; [exact Hclear|].
  split; [|split].
  - rewrite (route_enabled r request connId h Hget Hon). fold t. by rewrite Htry.
  - unfold getHandler, with_handler. cbn. rewrite map_get_set. by rewrite decide_True.
  - intros t' Hne. unfold getHandler, with_handler. cbn.
    rewrite map_get_set. by rewrite decide_False.
Qed.

Lemma route_succeeds_on_enabled_handler_witness :
  route Routing.new (Samples.request_to None) "conn_1_a"
  = (Js.Normal (success_response (Samples.request_to None) clearnet
                  "https://example.com" "conn_1_a"),
     with_handler Routing.new clearnet
       (set_state connected (new_ClearnetHandler no_config))).
Proof.
  destruct (route_succeeds_on_enabled_handler Routing.new (Samples.request_to None)
              "conn_1_a" (new_ClearnetHandler no_config) eq_refl eq_refl I)
    as (resolved & _ & Hclear & Hroute & _).
  rewrite (Hclear eq_refl) in Hroute. exact Hroute.
Defined.

(** X22. [route] calls [connect] on a handler that is not connected and
    looks neither at what it returns nor at the state it leaves: when
    [connect] returns without throwing, [false] included, the handler is
    asked to resolve the address, and if that returns the response has
    [success = true]. *)
Theorem route_ignores_connect_result r request connId h b h1 resolved h2 :
  let t := default (defaultNetwork r) (preferredNetwork request) in
  getHandler r t = Some h → isEnabled h = true →
  getState h ≠ connected →
  connect h = (Js.Normal b, h1) →
  handler_route (request_address request) h1 = (Js.Normal resolved, h2) →
  route r request connId
  = (Js.Normal (success_response request t resolved connId), with_handler r t h2).
Proof.
  intros t Hget Hon Hstate Hconnect Hroute.
  rewrite (route_enabled r request connId h Hget Hon). fold t.
  unfold route_try, bind, ret. fold (request_address request).
  rewrite bool_decide_eq_true_2 by assumption.
  rewrite Hconnect, Hroute. reflexivity.
Qed.

Lemma route_ignores_connect_result_witness :
  connect Samples.unreachable_handler
  = (Js.Normal false, set_state error Samples.unreachable_handler)
  ∧ route Samples.router_unreachable (Samples.request_to (Some custom)) "conn_1_a"
    = (Js.Normal (success_response (Samples.request_to (Some custom)) custom
                    "https://example.com" "conn_1_a"),
       with_handler Samples.router_unreachable custom
         (set_state error Samples.unreachable_handler)).
Proof.
  split; [reflexivity|].
  apply (route_ignores_connect_result Samples.router_unreachable
           (Samples.request_to (Some custom)) "conn_1_a"
           Samples.unreachable_handler false
           (set_state error Samples.unreachable_handler));
    [reflexivity | reflexivity | discriminate | reflexivity | reflexivity].
Defined.

(** X23. What a handler throws becomes the error of the response. When
    [connect], or the resolution of the address after it, throws an
    [Error], [route] returns a response with [success = false] whose
    error is the message of that [Error], and "Unknown routing error"
    for any other thrown value. The handler stays registered in the
    state the failed call left. *)
Theorem route_reports_what_is_thrown r request connId h e :
  let t := default (defaultNetwork r) (preferredNetwork request) in
  getHandler r t = Some h → isEnabled h = true →
  (∀ h1, getState h ≠ connected → connect h = (Js.Throws e, h1) →
     route r request connId
     = (Js.Normal (failure t (thrown_message e)), with_handler r t h1))
  ∧ (∀ b h1 h2, getState h ≠ connected → connect h = (Js.Normal b, h1) →
     handler_route (request_address request) h1 = (Js.Throws e, h2) →
     route r request connId
     = (Js.Normal (failure t (thrown_message e)), with_handler r t h2))
  ∧ (∀ h2, getState h = connected →
     handler_route (request_address request) h = (Js.Throws e, h2) →
     route r request connId
     = (Js.Normal (failure t (thrown_message e)), with_handler r t h2)).
Proof.
  intros t Hget Hon.
  rewrite (route_enabled r request connId h Hget Hon). fold t.
  unfold route_try, bind, ret. fold (request_address request).
  split; [|split].
  - intros h1 Hstate Hconnect.
    rewrite bool_decide_eq_true_2 by assumption. by rewrite Hconnect.
  - intros b h1 h2 Hstate Hconnect Hroute.
    rewrite bool_decide_eq_true_2 by assumption. by rewrite Hconnect, Hroute.
  - intros h2 Hstate Hroute.
    rewrite bool_decide_eq_false_2 by (intros Hne; by apply Hne). by rewrite Hroute.
Qed.

Lemma route_reports_what_is_thrown_witness :
  route Samples.router_throwing (Samples.request_to (Some custom)) "conn_1_a"
  = (Js.Normal (failure custom "proxy unreachable"),
     with_handler Samples.router_throwing custom
       (set_state error Samples.throwing_handler)).
Proof.
  destruct (route_reports_what_is_thrown Samples.router_throwing
              (Samples.request_to (Some custom)) "conn_1_a"
              Samples.throwing_handler (Js.ErrorObject "proxy unreachable")
              eq_refl eq_refl) as [Hconnect _].
  apply Hconnect; [discriminate | reflexivity].
Defined.

(** X24. After [connectAll], routing changes nothing more. On a router
    that holds only handlers of the six classes of the file,
    [connectAll] returns, and in the router it leaves every request for a
    network with an enabled handler succeeds and leaves the router as it
    is: no handler is connected a second time. *)
Theorem route_after_connectAll r request connId h :
  let t := default (defaultNetwork r) (preferredNetwork request) in
  keys_unique r →
  (∀ t' h', (t', h') ∈ handlers r → builtin h') →
  getHandler r t = Some h → isEnabled h = true →
  ∃ results r1 resolved,
    connectAll r = (Js.Normal results, r1)
    ∧ map_get t results = Some true
    ∧ getHandler r1 t = Some (set_state connected h)
    ∧ route r1 request connId
      = (Js.Normal (success_response request t resolved connId), r1).
Proof.
  intros t Hnd Hall Hget Hon.
  destruct (connectAll_loop_spec (handlers r)) with (results0 := @nil (NetworkType * bool))
    as (results & hs & Hloop & _ & Hspec).
  { intros t' h' Hin _. eexists _, _. apply builtin_connect, (Hall t' h' Hin). }
  destruct (Hspec Hnd t h Hget) as [Henabled _].
  destruct (Henabled Hon) as (b & h' & Hconnect & Hres & Hget1).
  assert (builtin h) as Hb.
  { apply (Hall t). clear -Hget. unfold getHandler in Hget.
    induction (handlers r) as [|[k v] m IH]; [discriminate|].
    cbn in Hget. destruct (decide (k = t)) as [->|].
    - injection Hget as ->. by left.
    - right. by apply IH. }
  rewrite (builtin_connect h Hb) in Hconnect. injection Hconnect as <- <-.
  set (r1 := {| handlers := hs; defaultNetwork := defaultNetwork r |}).
  assert (builtin (set_state connected h)) as Hb1 by exact Hb.
  destruct (route_try_builtin request t connId (set_state connected h) Hb1)
    as (resolved & _ & _ & Htry).
  exists results, r1, resolved.
  split; [unfold connectAll; by rewrite Hloop|].
  split; [exact Hres|]. split; [exact Hget1|].
  assert (getHandler r1 (default (defaultNetwork r1) (preferredNetwork request))
          = Some (set_state connected h)) as Hget1' by exact Hget1.
  rewrite (route_enabled r1 request connId (set_state connected h) Hget1' Hon).
  change (default (defaultNetwork r1) (preferredNetwork request)) with t.
  rewrite Htry. cbn [fst snd]. f_equal.
  unfold with_handler. cbn.
  change (set_state connected (set_state connected h)) with (set_state connected h).
  by rewrite (map_set_get_id t (set_state connected h) hs Hget1).
Qed.

Lemma route_after_connectAll_witness :
  ∃ r1 response,
    (connectAll Samples.router_all).2 = r1
    ∧ route r1 (Samples.request_to (Some tor)) "conn_1_a" = (Js.Normal response, r1)
    ∧ success response = true.
Proof.
  destruct (route_after_connectAll Samples.router_all (Samples.request_to (Some tor))
              "conn_1_a" (new_TorHandler no_config))
    as (results & r1 & resolved & Hconnect & _ & _ & Hroute).
  - apply registerHandler_keys_unique, registerHandler_keys_unique,
      registerHandler_keys_unique, registerHandler_keys_unique, new_keys_unique.
  - intros t' h' Hin.
    repeat (apply elem_of_cons in Hin as [[= -> ->]|Hin]; [exact I|]).
    by apply elem_of_nil in Hin.
  - reflexivity.
  - reflexivity.
  - exists r1, (success_response (Samples.request_to (Some tor)) tor resolved "conn_1_a").
    split; [by rewrite Hconnect|]. split; [exact Hroute | reflexivity].
Defined.

End RouterOperations.

(** ** The handle resolver *)

Section HandleResolverOperations.
Import Types HandleResolver.

Variable toLowerCase : string -> string.
Variable trim : string -> string.

(** X25. Handles are kept under their normalised name. Registering a
    name whose normalised form is free returns the handle, stored under
    that form, and one more handle is counted; unless an alias of that
    very name exists, every name with the same normalised form then
    resolves to it. Registering a name whose normalised form is taken
    throws "Handle ... is already registered" and changes nothing. A
    name that is neither a handle nor an alias resolves to nothing. *)
Theorem registerHandle_resolve_round_trip hr id now1 now2 n nt addr metadata :
  let h := {| handle_id := id; name := normalizeHandleName toLowerCase trim n; networkType := nt;
              address := addr; handle_metadata := metadata;
              createdAt := now1; updatedAt := now2 |} in
  let registered := registerHandle toLowerCase trim hr id now1 now2 n nt addr metadata in
  (handles hr !! normalizeHandleName toLowerCase trim n = None →
     registered.1 = Js.Normal h
     ∧ getHandleCount registered.2 = S (getHandleCount hr)
     ∧ hasHandle toLowerCase trim registered.2 n = true
     ∧ (aliasMap hr !! normalizeHandleName toLowerCase trim n = None →
        ∀ n', normalizeHandleName toLowerCase trim n' = normalizeHandleName toLowerCase trim n →
              resolve toLowerCase trim registered.2 n' = Some h))
  ∧ (is_Some (handles hr !! normalizeHandleName toLowerCase trim n) →
     registered
     = (Js.Throws (Js.ErrorObject
          ("Handle " +:+ Js.dquote +:+ n +:+ Js.dquote +:+ " is already registered")),
        hr))
  ∧ (handles hr !! normalizeHandleName toLowerCase trim n = None → aliasMap hr !! normalizeHandleName toLowerCase trim n = None →
     resolve toLowerCase trim hr n = None
     ∧ hasHandle toLowerCase trim hr n = false).
Proof.
  cbn. unfold registerHandle, resolve, hasHandle, getHandleCount.
  split; [|split].
  - intros Hfree. rewrite Hfree.
    rewrite bool_decide_eq_false_2 by by intros [? ?]. cbn.
    split; [reflexivity|].
    split; [by apply map_size_insert_None|].
    split.
    { rewrite lookup_insert_eq. rewrite bool_decide_eq_true_2 by eauto. reflexivity. }
    intros Hnoalias n' ->. rewrite Hnoalias. apply lookup_insert_eq.
  - intros Htaken. by rewrite bool_decide_eq_true_2.
  - intros Hfree Hnoalias. rewrite Hnoalias, Hfree.
    split; [reflexivity|].
    rewrite !bool_decide_eq_false_2 by by intros [? ?]. reflexivity.
Qed.

(** X26. An alias resolves to its target, and goes when its target
    goes. [createAlias] throws, and changes nothing, when the alias is
    the name of a handle and when the target is not; otherwise it
    returns [true], and the alias resolves to the handle of the target
    (provided the normalised target is not the empty string, which
    [resolve] takes for no alias) and counts for [hasHandle]. After
    [removeHandle] of the target the alias resolves to nothing and is
    unknown to [hasHandle]; the target resolves to nothing too, unless
    its own name is an alias. *)
Theorem alias_follows_its_target hr alias target :
  let created := createAlias toLowerCase trim hr alias target in
  (is_Some (handles hr !! normalizeHandleName toLowerCase trim alias) →
     created
     = (Js.Throws (Js.ErrorObject
          (Js.dquote +:+ alias +:+ Js.dquote +:+ " is already registered as a handle")),
        hr))
  ∧ (handles hr !! normalizeHandleName toLowerCase trim alias = None → handles hr !! normalizeHandleName toLowerCase trim target = None →
     created
     = (Js.Throws (Js.ErrorObject
          ("Target handle " +:+ Js.dquote +:+ target +:+ Js.dquote
           +:+ " does not exist")),
        hr))
  ∧ (∀ h, handles hr !! normalizeHandleName toLowerCase trim alias = None →
          handles hr !! normalizeHandleName toLowerCase trim target = Some h →
     created.1 = Js.Normal true
     ∧ handles created.2 = handles hr
     ∧ hasHandle toLowerCase trim created.2 alias = true
     ∧ (normalizeHandleName toLowerCase trim target ≠ "" → resolve toLowerCase trim created.2 alias = Some h)
     ∧ let removed := removeHandle toLowerCase trim created.2 target in
       removed.1 = true
       ∧ resolve toLowerCase trim removed.2 alias = None
       ∧ (aliasMap hr !! normalizeHandleName toLowerCase trim target = None →
          resolve toLowerCase trim removed.2 target = None)
       ∧ hasHandle toLowerCase trim removed.2 alias = false).
Proof.
  cbn. unfold createAlias.
  split; [|split].
  - intros Htaken. by rewrite bool_decide_eq_true_2.
  - intros Hfree Hnone. rewrite Hfree, Hnone.
    rewrite !bool_decide_eq_false_2 by by intros [? ?]. reflexivity.
  - intros h Hfree Htarget. rewrite Hfree, Htarget.
    rewrite bool_decide_eq_false_2 by by intros [? ?].
    rewrite bool_decide_eq_true_2 by eauto. cbn.
    assert (normalizeHandleName toLowerCase trim alias ≠ normalizeHandleName toLowerCase trim target) as Hne by congruence.
    assert (filter (λ entry : string * string, entry.2 ≠ normalizeHandleName toLowerCase trim target)
              (<[normalizeHandleName toLowerCase trim alias := normalizeHandleName toLowerCase trim target]> (aliasMap hr))
            !! normalizeHandleName toLowerCase trim alias = None) as Hgone.
    { apply map_lookup_filter_None. right. intros x Hx.
      rewrite lookup_insert_eq in Hx. injection Hx as <-. cbn. tauto. }
    split; [reflexivity|]. split; [reflexivity|].
    split.
    { unfold hasHandle. cbn. rewrite lookup_insert_eq.
      rewrite (bool_decide_eq_true_2 (is_Some (Some _))) by eauto. apply orb_true_r. }
    split.
    { intros Hnonempty. unfold resolve. cbn. rewrite lookup_insert_eq. cbn.
      assert (negb (Js.str_eq (normalizeHandleName toLowerCase trim target) "") = true) as ->
        by (apply negb_true_iff; by apply String.eqb_neq).
      exact Htarget. }
    unfold removeHandle, resolve, hasHandle. cbn. rewrite Htarget.
    split; [by rewrite bool_decide_eq_true_2 by eauto|].
    rewrite Hgone, lookup_delete_ne, Hfree by congruence.
    split; [reflexivity|].
    split.
    + intros Hnoalias.
      assert (filter (λ entry : string * string,
                        entry.2 ≠ normalizeHandleName toLowerCase trim target)
                (<[normalizeHandleName toLowerCase trim alias
                   := normalizeHandleName toLowerCase trim target]> (aliasMap hr))
              !! normalizeHandleName toLowerCase trim target = None) as ->.
      { apply map_lookup_filter_None. left.
        rewrite lookup_insert_ne by assumption. exact Hnoalias. }
      apply lookup_delete_eq.
    + rewrite !bool_decide_eq_false_2 by by intros [? ?]. reflexivity.
Qed.

End HandleResolverOperations.

Section HandleResolverSamples.
Import Types HandleResolver.

Lemma registerHandle_resolve_round_trip_witness :
  address <$> resolve Samples.ascii_toLowerCase Samples.ascii_trim
                Samples.resolver_my_site "MY-SITE"
  = Some "https://example.com".
Proof.
  destruct (registerHandle_resolve_round_trip
              Samples.ascii_toLowerCase Samples.ascii_trim HandleResolver.new
              "handle_1700000000000_h1j2k3l4m" 1700000000000 1700000000000
              " My-Site " clearnet "https://example.com" None) as ((_ & _ & _ & H) & _).
  - reflexivity.
  - unfold Samples.resolver_my_site. rewrite (H eq_refl "MY-SITE" eq_refl). reflexivity.
Defined.

Lemma alias_follows_its_target_witness :
  address <$> resolve Samples.ascii_toLowerCase Samples.ascii_trim
                (createAlias Samples.ascii_toLowerCase Samples.ascii_trim
                   Samples.resolver_my_site "home" "my-site").2 "Home"
  = Some "https://example.com".
Proof.
  destruct (alias_follows_its_target Samples.ascii_toLowerCase Samples.ascii_trim
              Samples.resolver_my_site "home" "my-site") as (_ & _ & H).
  destruct (H {| handle_id := "handle_1700000000000_h1j2k3l4m";
                 name := "my-site";
                 networkType := clearnet;
                 address := "https://example.com";
                 handle_metadata := None;
                 createdAt := 1700000000000;
                 updatedAt := 1700000000000 |})
    as (_ & _ & _ & Hresolve & _); [vm_compute; reflexivity..|].
  change (resolve Samples.ascii_toLowerCase Samples.ascii_trim
            (createAlias Samples.ascii_toLowerCase Samples.ascii_trim
               Samples.resolver_my_site "home" "my-site").2 "Home")
    with (resolve Samples.ascii_toLowerCase Samples.ascii_trim
            (createAlias Samples.ascii_toLowerCase Samples.ascii_trim
               Samples.resolver_my_site "home" "my-site").2 "home").
  rewrite Hresolve; [reflexivity | discriminate].
Defined.

End HandleResolverSamples.

(** ** The facade *)

Section FacadeOperations.
Import Types Routing HexaGate Spec.

(** [route] returns, and its response names the network asked for. *)
Lemma route_returns r request connId :
  ∃ response r',
    route r request connId = (Js.Normal response, r')
    ∧ networkUsed response = default (defaultNetwork r) (preferredNetwork request).
Proof.
  unfold route.
  destruct (map_get _ (handlers r)) as [h|]; [|by eexists _, _].
  destruct (isEnabled h); cbn [negb]; [|by eexists _, _].
  destruct (route_try _ _ _ h) as [[response|e] h'] eqn:Htry; [|by eexists _, _].
  eexists _, _. split; [reflexivity|].
  unfold route_try, bind, ret in Htry.
  repeat case_match; simplify_eq; reflexivity.
Qed.

(** X27. [initialize] on a fresh facade returns, whatever list of
    networks it is given, and marks the facade initialized. The
    registered networks are then clearnet, which the constructor of the
    router registers even when the list does not name it, followed by
    those of tor, i2p, gnunet and dvpn that the list names, in this
    order; [custom] in the list has no effect. Every registered handler
    is of its class of the file, enabled and connected. *)
Theorem initialize_registers_and_connects (enabledNetworks : option (list NetworkType)) :
  let nets := default [clearnet] enabledNetworks in
  ∃ g,
    initialize HexaGate.new enabledNetworks = (Js.Normal tt, g)
    ∧ isInitialized g = true
    ∧ getRegisteredNetworks (router g)
      = clearnet :: filter (λ t, t ∈ nets) [tor; i2p; gnunet; dvpn]
    ∧ defaultNetwork (router g) = clearnet
    ∧ ∀ t h, getHandler (router g) t = Some h →
        getType h = t ∧ isEnabled h = true ∧ getState h = connected ∧ builtin h.
Proof.
  intros nets. unfold initialize. fold nets.
  rewrite !filter_cons, filter_nil.
  destruct (decide (clearnet ∈ nets)) as [Hc|Hc],
           (decide (tor ∈ nets)) as [Ht|Ht],
           (decide (i2p ∈ nets)) as [Hi|Hi],
           (decide (gnunet ∈ nets)) as [Hg|Hg],
           (decide (dvpn ∈ nets)) as [Hd|Hd];
    rewrite ?(bool_decide_eq_true_2 _ Hc), ?(bool_decide_eq_false_2 _ Hc),
            ?(bool_decide_eq_true_2 _ Ht), ?(bool_decide_eq_false_2 _ Ht),
            ?(bool_decide_eq_true_2 _ Hi), ?(bool_decide_eq_false_2 _ Hi),
            ?(bool_decide_eq_true_2 _ Hg), ?(bool_decide_eq_false_2 _ Hg),
            ?(bool_decide_eq_true_2 _ Hd), ?(bool_decide_eq_false_2 _ Hd);
    (eexists; split; [reflexivity|]);
    (split; [reflexivity|]); (split; [reflexivity|]); (split; [reflexivity|]);
    intros t h; destruct t; cbn; intros [= <-]; repeat split; exact I.
Qed.

Section Navigation.

Variable toLowerCase : string -> string.
Variable trim : string -> string.

(** X28. [navigate] works only between [initialize] and [shutdown].
    On a facade that is not initialized it throws "HexaGate not
    initialized. Call initialize() first." and changes nothing; on an
    initialized one it never throws: it returns a response, and changes
    nothing but the router: the facade stays initialized, and its handle
    resolver, policy manager, certificate manager and security level
    manager are the ones it had. A [shutdown] that returns leaves the facade
    not initialized, so that [navigate] throws again. *)
Theorem navigate_needs_initialize g request connId :
  (isInitialized g = false →
     navigate toLowerCase trim g request connId
     = (Js.Throws (Js.ErrorObject "HexaGate not initialized. Call initialize() first."),
        g))
  ∧ (isInitialized g = true →
     ∃ response g',
       navigate toLowerCase trim g request connId = (Js.Normal response, g')
       ∧ isInitialized g' = true
       ∧ handles g' = handles g
       ∧ policies g' = policies g
       ∧ pki g' = pki g
       ∧ security g' = security g)
  ∧ (∀ g', shutdown g = (Js.Normal tt, g') →
     isInitialized g' = false
     ∧ navigate toLowerCase trim g' request connId
       = (Js.Throws (Js.ErrorObject "HexaGate not initialized. Call initialize() first."),
          g')).
Proof.
  unfold isInitialized, navigate. split; [|split].
  - by intros ->.
  - intros Hinit. rewrite Hinit. cbn [negb].
    destruct (route_returns (router g)
                (selectNetwork g (resolveHandle toLowerCase trim g request)) connId)
      as (response & r' & -> & _).
    by eexists _, _.
  - intros g'. unfold shutdown.
    destruct (disconnectAll (router g)) as [[[]|e] r']; [|discriminate].
    by intros [= <-].
Qed.

(** X29. The network of a navigation is chosen by precedence: the
    network the request names; else the network of its handle, when the
    resolver knows it; else the network selected for the security level
    of the request; else the default network of the router. The response
    of [navigate], successful or not, names that network. In particular
    the security level of the request is not consulted for a handle that
    resolves, and the current level of the facade, set by
    [setSecurityLevel], is never consulted. *)
Theorem navigate_network_precedence g request connId :
  isInitialized g = true →
  ∃ response g',
    navigate toLowerCase trim g request connId = (Js.Normal response, g')
    ∧ networkUsed response = network_by_priority toLowerCase trim g request
    ∧ ∀ level,
        (navigate toLowerCase trim (setSecurityLevel g level) request connId).1
        = Js.Normal response.
Proof.
  unfold isInitialized. intros Hinit.
  assert (default (defaultNetwork (router g))
            (preferredNetwork
               (selectNetwork g (resolveHandle toLowerCase trim g request)))
          = network_by_priority toLowerCase trim g request) as Hnet.
  { unfold network_by_priority, resolved_handle, selectNetwork, resolveHandle.
    destruct request as [[h|] u pn sl sp]; cbn.
    - destruct (negb (Js.str_eq h "")); cbn.
      + destruct (HandleResolver.resolve toLowerCase trim (handles g) h) as [resolved|];
          cbn; destruct pn, sl; reflexivity.
      + destruct pn, sl; reflexivity.
    - destruct pn, sl; reflexivity. }
  destruct (route_returns (router g)
              (selectNetwork g (resolveHandle toLowerCase trim g request)) connId)
    as (response & r' & Hroute & Hused).
  exists response, (with_router g r' (initialized g)).
  split; [unfold navigate; by rewrite Hinit, Hroute|].
  split; [by rewrite Hused|].
  intros level. unfold navigate. cbn. rewrite Hinit. cbn [negb].
  change (resolveHandle toLowerCase trim (setSecurityLevel g level) request)
    with (resolveHandle toLowerCase trim g request).
  change (selectNetwork (setSecurityLevel g level))
    with (selectNetwork g).
  by rewrite Hroute.
Qed.

(** X30. A navigation that reaches an enabled handler of one of the
    six classes of the file succeeds, and what is routed is: the
    registered address of the handle, when the request has a handle that
    the resolver knows; else the handle as it was given (the empty
    string included, whatever the URL); else the URL. The response
    carries the address as the handler resolves it (the address itself
    on clearnet), the network chosen by precedence, and the security
    level and the space of the request. *)
Theorem navigate_routes_resolved_address g request connId h :
  let t := network_by_priority toLowerCase trim g request in
  let address := address_by_priority toLowerCase trim g request in
  isInitialized g = true →
  getHandler (router g) t = Some h → isEnabled h = true → builtin h →
  ∃ resolved,
    handler_route address (set_state connected h)
    = (Js.Normal resolved, set_state connected h)
    ∧ (kind h = ClearnetHandler → resolved = address)
    ∧ (navigate toLowerCase trim g request connId).1
      = Js.Normal (success_response request t resolved connId).
Proof.
  intros t address. unfold isInitialized. intros Hinit Hget Hon Hb.
  set (rr := selectNetwork g (resolveHandle toLowerCase trim g request)).
  assert (default (defaultNetwork (router g)) (preferredNetwork rr) = t
          ∧ request_address rr = address
          ∧ securityLevel rr = securityLevel request
          ∧ spaceId rr = spaceId request) as (Hnet & Haddr & Hlevel & Hspace).
  { unfold rr, t, address, network_by_priority, address_by_priority, resolved_handle,
      selectNetwork, resolveHandle, request_address.
    destruct request as [[hd|] u pn sl sp]; cbn.
    - destruct (negb (Js.str_eq hd "")); cbn.
      + destruct (HandleResolver.resolve toLowerCase trim (handles g) hd) as [resolved|];
          cbn; destruct pn, sl; done.
      + destruct pn, sl; done.
    - destruct pn, sl; done. }
  destruct (route_try_builtin rr t connId h Hb) as (resolved & Hroute & Hclear & Htry).
  rewrite Haddr in Hroute, Hclear.
  exists resolved. split; [exact Hroute|]. split; [exact Hclear|].
  unfold navigate. rewrite Hinit. cbn [negb]. fold rr.
  rewrite <- Hnet in Hget.
  rewrite (route_enabled (router g) rr connId h Hget Hon).
  rewrite Hnet, Htry. cbn.
  unfold success_response. by rewrite Hlevel, Hspace.
Qed.

End Navigation.

Lemma navigate_routes_resolved_address_witness :
  (navigate Samples.ascii_toLowerCase Samples.ascii_trim Samples.gate_ready
     Samples.request_my_site_maximum "conn_1_a").1
  = Js.Normal (success_response Samples.request_my_site_maximum clearnet
                 "https://example.com" "conn_1_a").
Proof.
  destruct (navigate_routes_resolved_address
              Samples.ascii_toLowerCase Samples.ascii_trim Samples.gate_ready
              Samples.request_my_site_maximum "conn_1_a"
              (set_state connected (new_ClearnetHandler no_config))
              eq_refl eq_refl eq_refl I) as (resolved & _ & Hclear & Hnav).
  rewrite Hnav, (Hclear eq_refl). reflexivity.
Defined.

Lemma initialize_registers_and_connects_witness :
  getRegisteredNetworks (router (initialize HexaGate.new (Some [dvpn; custom; tor])).2)
  = [clearnet; tor; dvpn].
Proof.
  destruct (initialize_registers_and_connects (Some [dvpn; custom; tor]))
    as (g & Hinit & _ & Hnets & _).
  rewrite Hinit. cbn [snd]. rewrite Hnets. reflexivity.
Defined.

Lemma navigate_needs_initialize_witness :
  ∃ response g',
    navigate Samples.ascii_toLowerCase Samples.ascii_trim Samples.gate_ready
      Samples.request_my_site_maximum "conn_1_a" = (Js.Normal response, g').
Proof.
  destruct (navigate_needs_initialize Samples.ascii_toLowerCase Samples.ascii_trim
              Samples.gate_ready Samples.request_my_site_maximum "conn_1_a")
    as (_ & Hready & _).
  destruct (Hready eq_refl) as (response & g' & Hnav & _).
  by exists response, g'.
Defined.

Lemma navigate_network_precedence_witness :
  ∃ response g',
    navigate Samples.ascii_toLowerCase Samples.ascii_trim Samples.gate_ready
      Samples.request_my_site_maximum "conn_1_a" = (Js.Normal response, g')
    ∧ networkUsed response = clearnet
    ∧ selectNetworkForSecurity (router Samples.gate_ready) maximum = tor.
Proof.
  destruct (navigate_network_precedence Samples.ascii_toLowerCase Samples.ascii_trim
              Samples.gate_ready Samples.request_my_site_maximum "conn_1_a" eq_refl)
    as (response & g' & Hnav & Hused & _).
  exists response, g'. split; [exact Hnav|]. split; [|reflexivity].
  rewrite Hused. reflexivity.
Defined.

End FacadeOperations.
